(** * AgriSupplyChain: a shallow embedding of the ledger contract

    The contract [AgriSupplyChain] (Solidity ^0.8.19, inheriting OpenZeppelin's
    [Ownable] and [ReentrancyGuard]) is embedded as functions over an explicit
    [Storage] record.  Solidity mappings are total (an unwritten slot reads as
    the zero value), so they are total functions here and are updated with
    stdpp's function insert [<[k:=v]> f].  Function bodies are written in a
    small state-and-failure monad that keeps the storage reached at the point
    of failure; [call] then adds the platform's rollback. *)

From stdpp Require Import base numbers strings list functions.

Open Scope Z_scope.

(** ** Value types *)

Definition address := Z.
Definition uint256 := Z.
Definition int256 := Z.

Definition MAX_UINT256 : Z := 2 ^ 256 - 1.

(** [address(0)]: the value an unwritten address slot reads as.  No
    transaction is ever signed by it. *)
Definition address0 : address := 0.

Inductive Role := Farmer | Supplier | Distributor | Retailer.
Inductive Stage := Harvested | Processed | InTransit | Delivered | Sold.
Inductive Quality := Excellent | Good | Fair | Poor.

#[global] Instance Role_eq_dec : EqDecision Role.
Proof. solve_decision. Defined.
#[global] Instance Stage_eq_dec : EqDecision Stage.
Proof. solve_decision. Defined.
#[global] Instance Quality_eq_dec : EqDecision Quality.
Proof. solve_decision. Defined.

(** [uint8(_stage)] *)
Definition uint8_of_Stage (st : Stage) : Z :=
  match st with
  | Harvested => 0 | Processed => 1 | InTransit => 2 | Delivered => 3 | Sold => 4
  end.

(** [bytes(_s).length] *)
Definition bytes_length (s : string) : Z := Z.of_nat (String.length s).

(** ** Structs *)

Module Participant.
Record t := mk {
  name : string;
  location : string;
  role : Role;
  isActive : bool;
  reputation : uint256
}.
Definition zero : t := mk EmptyString EmptyString Farmer false 0.
Definition set_isActive (b : bool) (p : t) : t :=
  mk (name p) (location p) (role p) b (reputation p).
Definition set_reputation (r : uint256) (p : t) : t :=
  mk (name p) (location p) (role p) (isActive p) r.
End Participant.

Module Product.
Record t := mk {
  productId : uint256;
  productName : string;
  variety : string;
  quantity : uint256;
  harvestDate : string;
  farmer : address;
  currentQuality : Quality;
  isOrganic : bool;
  certifications : list string
}.
Definition zero : t :=
  mk 0 EmptyString EmptyString 0 EmptyString address0 Excellent false [].
Definition set_currentQuality (q : Quality) (p : t) : t :=
  mk (productId p) (productName p) (variety p) (quantity p) (harvestDate p)
     (farmer p) q (isOrganic p) (certifications p).
End Product.

Module BatchTracking.
Record t := mk {
  batchId : uint256;
  productId : uint256;
  currentStage : Stage;
  currentOwner : address;
  timestamp : uint256;
  location : string;
  ownershipHistory : list address;
  locationHistory : list string;
  stageTimestamps : list uint256;
  notes : string
}.
Definition zero : t :=
  mk 0 0 Harvested address0 0 EmptyString [] [] [] EmptyString.
Definition set_notes (n : string) (b : t) : t :=
  mk (batchId b) (productId b) (currentStage b) (currentOwner b) (timestamp b)
     (location b) (ownershipHistory b) (locationHistory b) (stageTimestamps b) n.
End BatchTracking.

Module EnvironmentRecord.
Record t := mk {
  timestamp : uint256;
  temperature : int256;
  humidity : uint256;
  location : string;
  recorder : address;
  notes : string
}.
End EnvironmentRecord.

Module Transaction.
Record t := mk {
  transactionId : uint256;
  batchId : uint256;
  from : address;
  to : address;
  timestamp : uint256;
  price : uint256;
  transactionType : string;
  completed : bool
}.
Definition zero : t := mk 0 0 address0 address0 0 0 EmptyString false.
Definition set_completed (c : bool) (x : t) : t :=
  mk (transactionId x) (batchId x) (from x) (to x) (timestamp x) (price x)
     (transactionType x) c.
End Transaction.

(** ** Contract storage *)

Record Storage := mkStorage {
  participants : address -> Participant.t;
  products : uint256 -> Product.t;
  batches : uint256 -> BatchTracking.t;
  transactions : uint256 -> Transaction.t;
  qrCodeToBatch : string -> uint256;
  batchEnvironmentData : uint256 -> list EnvironmentRecord.t;
  nextProductId : uint256;
  nextBatchId : uint256;
  nextTransactionId : uint256;
  (* Ownable._owner *)
  Ownable_owner : address;
  (* ReentrancyGuard._status; [true] stands for _ENTERED *)
  ReentrancyGuard_entered : bool
}.

Definition set_participants (f : address -> Participant.t) (s : Storage) : Storage :=
  mkStorage f (products s) (batches s) (transactions s) (qrCodeToBatch s)
    (batchEnvironmentData s) (nextProductId s) (nextBatchId s) (nextTransactionId s)
    (Ownable_owner s) (ReentrancyGuard_entered s).
Definition set_products (f : uint256 -> Product.t) (s : Storage) : Storage :=
  mkStorage (participants s) f (batches s) (transactions s) (qrCodeToBatch s)
    (batchEnvironmentData s) (nextProductId s) (nextBatchId s) (nextTransactionId s)
    (Ownable_owner s) (ReentrancyGuard_entered s).
Definition set_batches (f : uint256 -> BatchTracking.t) (s : Storage) : Storage :=
  mkStorage (participants s) (products s) f (transactions s) (qrCodeToBatch s)
    (batchEnvironmentData s) (nextProductId s) (nextBatchId s) (nextTransactionId s)
    (Ownable_owner s) (ReentrancyGuard_entered s).
Definition set_transactions (f : uint256 -> Transaction.t) (s : Storage) : Storage :=
  mkStorage (participants s) (products s) (batches s) f (qrCodeToBatch s)
    (batchEnvironmentData s) (nextProductId s) (nextBatchId s) (nextTransactionId s)
    (Ownable_owner s) (ReentrancyGuard_entered s).
Definition set_qrCodeToBatch (f : string -> uint256) (s : Storage) : Storage :=
  mkStorage (participants s) (products s) (batches s) (transactions s) f
    (batchEnvironmentData s) (nextProductId s) (nextBatchId s) (nextTransactionId s)
    (Ownable_owner s) (ReentrancyGuard_entered s).
Definition set_batchEnvironmentData (f : uint256 -> list EnvironmentRecord.t)
    (s : Storage) : Storage :=
  mkStorage (participants s) (products s) (batches s) (transactions s) (qrCodeToBatch s)
    f (nextProductId s) (nextBatchId s) (nextTransactionId s)
    (Ownable_owner s) (ReentrancyGuard_entered s).
Definition set_nextProductId (n : uint256) (s : Storage) : Storage :=
  mkStorage (participants s) (products s) (batches s) (transactions s) (qrCodeToBatch s)
    (batchEnvironmentData s) n (nextBatchId s) (nextTransactionId s)
    (Ownable_owner s) (ReentrancyGuard_entered s).
Definition set_nextBatchId (n : uint256) (s : Storage) : Storage :=
  mkStorage (participants s) (products s) (batches s) (transactions s) (qrCodeToBatch s)
    (batchEnvironmentData s) (nextProductId s) n (nextTransactionId s)
    (Ownable_owner s) (ReentrancyGuard_entered s).
Definition set_nextTransactionId (n : uint256) (s : Storage) : Storage :=
  mkStorage (participants s) (products s) (batches s) (transactions s) (qrCodeToBatch s)
    (batchEnvironmentData s) (nextProductId s) (nextBatchId s) n
    (Ownable_owner s) (ReentrancyGuard_entered s).
Definition set_owner (a : address) (s : Storage) : Storage :=
  mkStorage (participants s) (products s) (batches s) (transactions s) (qrCodeToBatch s)
    (batchEnvironmentData s) (nextProductId s) (nextBatchId s) (nextTransactionId s)
    a (ReentrancyGuard_entered s).
Definition set_entered (b : bool) (s : Storage) : Storage :=
  mkStorage (participants s) (products s) (batches s) (transactions s) (qrCodeToBatch s)
    (batchEnvironmentData s) (nextProductId s) (nextBatchId s) (nextTransactionId s)
    (Ownable_owner s) b.

(** The six entity collections of the ledger with their id counters: the
    storage without the two inherited bookkeeping slots. *)
Definition same_entities (s1 s2 : Storage) : Prop :=
  participants s1 = participants s2 /\
  products s1 = products s2 /\
  batches s1 = batches s2 /\
  transactions s1 = transactions s2 /\
  qrCodeToBatch s1 = qrCodeToBatch s2 /\
  batchEnvironmentData s1 = batchEnvironmentData s2 /\
  nextProductId s1 = nextProductId s2 /\
  nextBatchId s1 = nextBatchId s2 /\
  nextTransactionId s1 = nextTransactionId s2.

(** Slot-by-slot equality of two storages: every mapping reads the same at
    every key and every scalar slot is equal. *)
Definition same_storage (s1 s2 : Storage) : Prop :=
  (forall a, participants s1 a = participants s2 a) /\
  (forall i, products s1 i = products s2 i) /\
  (forall i, batches s1 i = batches s2 i) /\
  (forall i, transactions s1 i = transactions s2 i) /\
  (forall c, qrCodeToBatch s1 c = qrCodeToBatch s2 c) /\
  (forall i, batchEnvironmentData s1 i = batchEnvironmentData s2 i) /\
  nextProductId s1 = nextProductId s2 /\
  nextBatchId s1 = nextBatchId s2 /\
  nextTransactionId s1 = nextTransactionId s2 /\
  Ownable_owner s1 = Ownable_owner s2 /\
  ReentrancyGuard_entered s1 = ReentrancyGuard_entered s2.

(** ** Events, effects and the execution monad *)

Inductive Event :=
| ParticipantRegistered (participant : address) (role : Role) (name : string)
| ProductCreated (productId : uint256) (productName : string) (farmer : address)
| BatchCreated (batchId productId : uint256) (qrCode : string)
| EnvironmentDataRecorded (batchId : uint256) (temperature : int256)
    (humidity : uint256) (recorder : address)
| OwnershipTransferred (batchId : uint256) (from to : address) (newStage : Stage)
| TransactionCompleted (transactionId batchId : uint256) (buyer : address)
| QualityUpdated (batchId : uint256) (newQuality : Quality) (updatedBy : address)
| BatchNoteAdded (batchId : uint256) (note : string) (addedBy : address)
| OwnableOwnershipTransferred (previousOwner newOwner : address).

(** What a call does to the outside world, in order.  A [Send] is an ether
    transfer out of the contract; it carries the storage as it stands at the
    moment control passes to the recipient. *)
Inductive Effect :=
| Emit (e : Event)
| Send (to : address) (amount : uint256) (seen : Storage).

Inductive Failure :=
| Revert (reason : string)
| Panic (code : Z)
| TransferFailed.

Inductive Result (A : Type) :=
| Ok (a : A) (s : Storage) (log : list Effect)
| Fail (f : Failure) (s : Storage) (log : list Effect).
Arguments Ok {A} a s log.
Arguments Fail {A} f s log.

Definition M (A : Type) : Type := Storage -> list Effect -> Result A.

Definition ret {A} (a : A) : M A := fun s log => Ok a s log.

Definition bind {A B} (m : M A) (k : A -> M B) : M B :=
  fun s log =>
    match m s log with
    | Ok a s' log' => k a s' log'
    | Fail f s' log' => Fail f s' log'
    end.

#[global] Instance M_ret : MRet M := @ret.
#[global] Instance M_bind : MBind M := fun A B k m => bind m k.

Definition gets {A} (f : Storage -> A) : M A := fun s log => Ok (f s) s log.
Definition modify (f : Storage -> Storage) : M unit := fun s log => Ok tt (f s) log.
Definition fail {A} (f : Failure) : M A := fun s log => Fail f s log.

Definition require (cond : bool) (reason : string) : M unit :=
  if cond then ret tt else fail (Revert reason).

Definition emit (e : Event) : M unit := fun s log => Ok tt s (log ++ [Emit e]).

(** The environment of one call. [payable_ok to amount] tells whether a plain
    ether transfer of [amount] to [to] goes through. *)
Record Ctx := mkCtx {
  msg_sender : address;
  block_timestamp : uint256;
  payable_ok : address -> uint256 -> bool
}.

(** [payable(to).transfer(amount)] *)
Definition transfer (ctx : Ctx) (to : address) (amount : uint256) : M unit :=
  fun s log =>
    if payable_ok ctx to amount
    then Ok tt s (log ++ [Send to amount s])
    else Fail TransferFailed s (log ++ [Send to amount s]).

(** [x++] on a uint256 storage counter, with Solidity 0.8 checked arithmetic. *)
Definition post_increment (get : Storage -> uint256)
    (set : uint256 -> Storage -> Storage) : M uint256 :=
  v ← gets get;
  if v + 1 <=? MAX_UINT256 then modify (set (v + 1));; ret v
  else fail (Panic 17).

(** ** Modifiers *)

Definition onlyRegistered (ctx : Ctx) : M unit :=
  p ← gets (fun s => participants s (msg_sender ctx));
  require (Participant.isActive p) "Not a registered participant".

Definition onlyRole (ctx : Ctx) (_role : Role) : M unit :=
  p ← gets (fun s => participants s (msg_sender ctx));
  require (bool_decide (Participant.role p = _role)) "Unauthorized role".

Definition validBatch (_batchId : uint256) : M unit :=
  n ← gets nextBatchId;
  require ((_batchId >? 0) && (_batchId <? n)) "Invalid batch ID".

Definition onlyCurrentOwner (ctx : Ctx) (_batchId : uint256) : M unit :=
  b ← gets (fun s => batches s _batchId);
  require (BatchTracking.currentOwner b =? msg_sender ctx) "Not the current owner".

(** [Ownable.onlyOwner] *)
Definition onlyOwner (ctx : Ctx) : M unit :=
  o ← gets Ownable_owner;
  require (o =? msg_sender ctx) "Ownable: caller is not the owner".

(** [ReentrancyGuard.nonReentrant] wrapped around a function body *)
Definition nonReentrant {A} (body : M A) : M A :=
  entered ← gets ReentrancyGuard_entered;
  require (negb entered) "ReentrancyGuard: reentrant call";;
  modify (set_entered true);;
  r ← body;
  modify (set_entered false);;
  ret r.

(** ** State-changing functions *)

Definition registerParticipant (ctx : Ctx) (_name _location : string) (_role : Role)
    : M unit :=
  p ← gets (fun s => participants s (msg_sender ctx));
  require (negb (Participant.isActive p)) "Already registered";;
  require (bytes_length _name >? 0) "Name cannot be empty";;
  require (bytes_length _location >? 0) "Location cannot be empty";;
  modify (fun s => set_participants
    (<[msg_sender ctx := Participant.mk _name _location _role true 100]>
       (participants s)) s);;
  emit (ParticipantRegistered (msg_sender ctx) _role _name).

Definition createProduct (ctx : Ctx) (_productName _variety : string)
    (_quantity : uint256) (_harvestDate : string) (_isOrganic : bool)
    (_certifications : list string) : M uint256 :=
  onlyRegistered ctx;;
  onlyRole ctx Farmer;;
  require (bytes_length _productName >? 0) "Product name cannot be empty";;
  require (_quantity >? 0) "Quantity must be greater than 0";;
  productId ← post_increment nextProductId set_nextProductId;
  modify (fun s => set_products
    (<[productId := Product.mk productId _productName _variety _quantity _harvestDate
         (msg_sender ctx) Excellent _isOrganic _certifications]> (products s)) s);;
  emit (ProductCreated productId _productName (msg_sender ctx));;
  ret productId.

Definition createBatch (ctx : Ctx) (_productId : uint256)
    (_qrCode _initialLocation : string) : M uint256 :=
  onlyRegistered ctx;;
  onlyRole ctx Farmer;;
  product ← gets (fun s => products s _productId);
  require (Product.farmer product =? msg_sender ctx) "Not the product owner";;
  existing ← gets (fun s => qrCodeToBatch s _qrCode);
  require (existing =? 0) "QR code already exists";;
  require (bytes_length _qrCode >? 0) "QR code cannot be empty";;
  require (bytes_length _initialLocation >? 0) "Location cannot be empty";;
  batchId ← post_increment nextBatchId set_nextBatchId;
  modify (fun s => set_batches
    (alter (fun newBatch =>
       BatchTracking.mk batchId _productId Harvested (msg_sender ctx)
         (block_timestamp ctx) _initialLocation
         (BatchTracking.ownershipHistory newBatch ++ [msg_sender ctx])
         (BatchTracking.locationHistory newBatch ++ [_initialLocation])
         (BatchTracking.stageTimestamps newBatch ++ [block_timestamp ctx])
         (BatchTracking.notes newBatch)) batchId (batches s)) s);;
  modify (fun s => set_qrCodeToBatch (<[_qrCode := batchId]> (qrCodeToBatch s)) s);;
  emit (BatchCreated batchId _productId _qrCode);;
  ret batchId.

Definition recordEnvironmentData (ctx : Ctx) (_batchId : uint256)
    (_temperature : int256) (_humidity : uint256) (_location _notes : string)
    : M unit :=
  onlyRegistered ctx;;
  validBatch _batchId;;
  require (bytes_length _location >? 0) "Location cannot be empty";;
  let newRecord := EnvironmentRecord.mk (block_timestamp ctx) _temperature _humidity
                     _location (msg_sender ctx) _notes in
  modify (fun s => set_batchEnvironmentData
    (alter (fun records => records ++ [newRecord]) _batchId (batchEnvironmentData s)) s);;
  emit (EnvironmentDataRecorded _batchId _temperature _humidity (msg_sender ctx)).

Definition transferBatchOwnership (ctx : Ctx) (_batchId : uint256)
    (_newOwner : address) (_newStage : Stage) (_newLocation : string) : M unit :=
  validBatch _batchId;;
  onlyCurrentOwner ctx _batchId;;
  onlyRegistered ctx;;
  newOwner ← gets (fun s => participants s _newOwner);
  require (Participant.isActive newOwner) "New owner not registered";;
  cur ← gets (fun s => BatchTracking.currentStage (batches s _batchId));
  require (negb (bool_decide (_newStage = cur))) "Stage must change";;
  require (uint8_of_Stage _newStage >? uint8_of_Stage cur) "Stage must progress forward";;
  require (bytes_length _newLocation >? 0) "Location cannot be empty";;
  previousOwner ← gets (fun s => BatchTracking.currentOwner (batches s _batchId));
  modify (fun s => set_batches
    (alter (fun batch =>
       BatchTracking.mk (BatchTracking.batchId batch) (BatchTracking.productId batch)
         _newStage _newOwner (block_timestamp ctx) _newLocation
         (BatchTracking.ownershipHistory batch ++ [_newOwner])
         (BatchTracking.locationHistory batch ++ [_newLocation])
         (BatchTracking.stageTimestamps batch ++ [block_timestamp ctx])
         (BatchTracking.notes batch)) _batchId (batches s)) s);;
  emit (OwnershipTransferred _batchId previousOwner _newOwner _newStage).

Definition getQualityString (_quality : Quality) : string :=
  match _quality with
  | Excellent => "Excellent" | Good => "Good" | Fair => "Fair" | Poor => "Poor"
  end.

Definition updateQuality (ctx : Ctx) (_batchId : uint256) (_newQuality : Quality)
    (_reason : string) : M unit :=
  onlyRegistered ctx;;
  validBatch _batchId;;
  b ← gets (fun s => batches s _batchId);
  p ← gets (fun s => participants s (msg_sender ctx));
  require ((BatchTracking.currentOwner b =? msg_sender ctx)
           || bool_decide (Participant.role p = Supplier)
           || bool_decide (Participant.role p = Distributor))
    "Not authorized to update quality";;
  modify (fun s => set_products
    (alter (Product.set_currentQuality _newQuality)
       (BatchTracking.productId (batches s _batchId)) (products s)) s);;
  (if bytes_length _reason >? 0 then
     modify (fun s => set_batches
       (alter (fun batch => BatchTracking.set_notes
          (BatchTracking.notes batch +:+ " | Quality updated to "
             +:+ getQualityString _newQuality +:+ ": " +:+ _reason) batch)
          _batchId (batches s)) s)
   else ret tt);;
  emit (QualityUpdated _batchId _newQuality (msg_sender ctx)).

Definition addBatchNote (ctx : Ctx) (_batchId : uint256) (_note : string) : M unit :=
  onlyRegistered ctx;;
  validBatch _batchId;;
  require (bytes_length _note >? 0) "Note cannot be empty";;
  modify (fun s => set_batches
    (alter (fun batch => BatchTracking.set_notes
       (BatchTracking.notes batch +:+ " | " +:+ _note) batch) _batchId (batches s)) s);;
  emit (BatchNoteAdded _batchId _note (msg_sender ctx)).

Definition createTransaction (ctx : Ctx) (_batchId : uint256) (_buyer : address)
    (_price : uint256) (_transactionType : string) : M uint256 :=
  validBatch _batchId;;
  onlyCurrentOwner ctx _batchId;;
  buyer ← gets (fun s => participants s _buyer);
  require (Participant.isActive buyer) "Buyer not registered";;
  require (_price >? 0) "Price must be greater than 0";;
  require (bytes_length _transactionType >? 0) "Transaction type cannot be empty";;
  transactionId ← post_increment nextTransactionId set_nextTransactionId;
  modify (fun s => set_transactions
    (<[transactionId := Transaction.mk transactionId _batchId (msg_sender ctx) _buyer
         (block_timestamp ctx) _price _transactionType false]> (transactions s)) s);;
  ret transactionId.

(** The body of [completeTransaction], inside the reentrancy guard.  [txn]
    and [batch] are storage pointers in the source: every use reads the
    storage as it is at that point. *)
Definition completeTransaction_body (ctx : Ctx) (msg_value : uint256)
    (_transactionId : uint256) : M unit :=
  let txn (s : Storage) := transactions s _transactionId in
  to ← gets (fun s => Transaction.to (txn s));
  require (msg_sender ctx =? to) "Not the buyer";;
  completed ← gets (fun s => Transaction.completed (txn s));
  require (negb completed) "Already completed";;
  price ← gets (fun s => Transaction.price (txn s));
  require (msg_value >=? price) "Insufficient payment";;
  modify (fun s => set_transactions
    (alter (Transaction.set_completed true) _transactionId (transactions s)) s);;
  modify (fun s => set_batches
    (alter (fun batch =>
       BatchTracking.mk (BatchTracking.batchId batch) (BatchTracking.productId batch)
         (BatchTracking.currentStage batch) (Transaction.to (txn s))
         (block_timestamp ctx) (BatchTracking.location batch)
         (BatchTracking.ownershipHistory batch ++ [Transaction.to (txn s)])
         (BatchTracking.locationHistory batch ++ [BatchTracking.location batch])
         (BatchTracking.stageTimestamps batch ++ [block_timestamp ctx])
         (BatchTracking.notes batch))
       (Transaction.batchId (txn s)) (batches s)) s);;
  seller ← gets (fun s => Transaction.from (txn s));
  price ← gets (fun s => Transaction.price (txn s));
  transfer ctx seller price;;
  price ← gets (fun s => Transaction.price (txn s));
  (if msg_value >? price then transfer ctx (msg_sender ctx) (msg_value - price)
   else ret tt);;
  batchId ← gets (fun s => Transaction.batchId (txn s));
  emit (TransactionCompleted _transactionId batchId (msg_sender ctx)).

Definition completeTransaction (ctx : Ctx) (msg_value : uint256)
    (_transactionId : uint256) : M unit :=
  nonReentrant (completeTransaction_body ctx msg_value _transactionId).

(** *** Admin functions *)

Definition updateParticipantReputation (ctx : Ctx) (_participant : address)
    (_newReputation : uint256) : M unit :=
  onlyOwner ctx;;
  p ← gets (fun s => participants s _participant);
  require (Participant.isActive p) "Participant not active";;
  modify (fun s => set_participants
    (alter (Participant.set_reputation _newReputation) _participant (participants s)) s).

Definition deactivateParticipant (ctx : Ctx) (_participant : address) : M unit :=
  onlyOwner ctx;;
  modify (fun s => set_participants
    (alter (Participant.set_isActive false) _participant (participants s)) s).

Definition pause (ctx : Ctx) : M unit := onlyOwner ctx.
Definition unpause (ctx : Ctx) : M unit := onlyOwner ctx.

(** [Ownable.transferOwnership] and [Ownable.renounceOwnership], inherited. *)
Definition Ownable_transferOwnership (ctx : Ctx) (newOwner : address) : M unit :=
  onlyOwner ctx;;
  require (negb (newOwner =? address0)) "Ownable: new owner is the zero address";;
  oldOwner ← gets Ownable_owner;
  modify (set_owner newOwner);;
  emit (OwnableOwnershipTransferred oldOwner newOwner).

Definition Ownable_renounceOwnership (ctx : Ctx) : M unit :=
  onlyOwner ctx;;
  oldOwner ← gets Ownable_owner;
  modify (set_owner address0);;
  emit (OwnableOwnershipTransferred oldOwner address0).

(** ** View functions *)

Inductive ViewResult (A : Type) :=
| Returns (a : A)
| Reverts (f : Failure).
Arguments Returns {A} a.
Arguments Reverts {A} f.

(** A read-only call: the function is run on the storage and only its answer
    is kept. *)
Definition view {A} (m : M A) (s : Storage) : ViewResult A :=
  match m s [] with
  | Ok a _ _ => Returns a
  | Fail f _ _ => Reverts f
  end.

Definition getBatchHistory (_batchId : uint256)
    : M (list address * list string * list uint256) :=
  validBatch _batchId;;
  batch ← gets (fun s => batches s _batchId);
  ret (BatchTracking.ownershipHistory batch, BatchTracking.locationHistory batch,
       BatchTracking.stageTimestamps batch).

Definition getEnvironmentDataCount (_batchId : uint256) : M uint256 :=
  validBatch _batchId;;
  records ← gets (fun s => batchEnvironmentData s _batchId);
  ret (Z.of_nat (length records)).

Definition getEnvironmentData (_batchId _index : uint256)
    : M (uint256 * int256 * uint256 * string * address * string) :=
  validBatch _batchId;;
  records ← gets (fun s => batchEnvironmentData s _batchId);
  require (_index <? Z.of_nat (length records)) "Invalid index";;
  match records !! Z.to_nat _index with
  | Some record =>
      ret (EnvironmentRecord.timestamp record, EnvironmentRecord.temperature record,
           EnvironmentRecord.humidity record, EnvironmentRecord.location record,
           EnvironmentRecord.recorder record, EnvironmentRecord.notes record)
  | None => fail (Panic 50)
  end.

Definition getBatchByQR (_qrCode : string) : M uint256 :=
  gets (fun s => qrCodeToBatch s _qrCode).

Definition getProductInfo (_productId : uint256)
    : M (string * string * uint256 * address * Quality * bool * list string) :=
  product ← gets (fun s => products s _productId);
  ret (Product.productName product, Product.variety product, Product.quantity product,
       Product.farmer product, Product.currentQuality product,
       Product.isOrganic product, Product.certifications product).

Definition getBatchDetails (_batchId : uint256)
    : M (uint256 * uint256 * Stage * address * string * string * uint256) :=
  validBatch _batchId;;
  batch ← gets (fun s => batches s _batchId);
  records ← gets (fun s => batchEnvironmentData s _batchId);
  ret (BatchTracking.batchId batch, BatchTracking.productId batch,
       BatchTracking.currentStage batch, BatchTracking.currentOwner batch,
       BatchTracking.location batch, BatchTracking.notes batch,
       Z.of_nat (length records)).

Definition getStageString (_stage : Stage) : string :=
  match _stage with
  | Harvested => "Harvested" | Processed => "Processed" | InTransit => "In Transit"
  | Delivered => "Delivered" | Sold => "Sold"
  end.

Definition getRoleString (_role : Role) : string :=
  match _role with
  | Farmer => "Farmer" | Supplier => "Supplier" | Distributor => "Distributor"
  | Retailer => "Retailer"
  end.

(** ** Transactions against the contract *)

(** The state-changing entry points.  Only [completeTransaction] is payable,
    so only it carries the ether sent along ([msg.value]); a call of any other
    function with ether attached never reaches its body. *)
Inductive Call :=
| RegisterParticipant (_name _location : string) (_role : Role)
| CreateProduct (_productName _variety : string) (_quantity : uint256)
    (_harvestDate : string) (_isOrganic : bool) (_certifications : list string)
| CreateBatch (_productId : uint256) (_qrCode _initialLocation : string)
| RecordEnvironmentData (_batchId : uint256) (_temperature : int256)
    (_humidity : uint256) (_location _notes : string)
| TransferBatchOwnership (_batchId : uint256) (_newOwner : address)
    (_newStage : Stage) (_newLocation : string)
| UpdateQuality (_batchId : uint256) (_newQuality : Quality) (_reason : string)
| AddBatchNote (_batchId : uint256) (_note : string)
| CreateTransaction (_batchId : uint256) (_buyer : address) (_price : uint256)
    (_transactionType : string)
| CompleteTransaction (_transactionId : uint256) (msg_value : uint256)
| UpdateParticipantReputation (_participant : address) (_newReputation : uint256)
| DeactivateParticipant (_participant : address)
| Pause
| Unpause
| TransferOwnership (newOwner : address)
| RenounceOwnership.

(** What a function hands back: nothing, or the [uint256] of its [returns]
    clause. *)
Inductive RetVal :=
| RVoid
| RUint (n : uint256).

Definition void (m : M unit) : M RetVal := m;; ret RVoid.
Definition uint (m : M uint256) : M RetVal := n ← m; ret (RUint n).

Definition dispatch (ctx : Ctx) (c : Call) : M RetVal :=
  match c with
  | RegisterParticipant n l r => void (registerParticipant ctx n l r)
  | CreateProduct n v q h o cs => uint (createProduct ctx n v q h o cs)
  | CreateBatch p q l => uint (createBatch ctx p q l)
  | RecordEnvironmentData b t h l n => void (recordEnvironmentData ctx b t h l n)
  | TransferBatchOwnership b o st l => void (transferBatchOwnership ctx b o st l)
  | UpdateQuality b q r => void (updateQuality ctx b q r)
  | AddBatchNote b n => void (addBatchNote ctx b n)
  | CreateTransaction b buyer p t => uint (createTransaction ctx b buyer p t)
  | CompleteTransaction t v => void (completeTransaction ctx v t)
  | UpdateParticipantReputation p r => void (updateParticipantReputation ctx p r)
  | DeactivateParticipant p => void (deactivateParticipant ctx p)
  | Pause => void (pause ctx)
  | Unpause => void (unpause ctx)
  | TransferOwnership o => void (Ownable_transferOwnership ctx o)
  | RenounceOwnership => void (Ownable_renounceOwnership ctx)
  end.

(** The outcome of a transaction as the caller sees it. *)
Inductive Outcome :=
| Success (r : RetVal) (s' : Storage) (effects : list Effect)
| Reverted (f : Failure).

(** One external call: the function runs on the current storage; if it fails,
    whatever it wrote is discarded by the platform. *)
Definition call (ctx : Ctx) (c : Call) (s : Storage) : Outcome :=
  match dispatch ctx c s [] with
  | Ok r s' log => Success r s' log
  | Fail f _ _ => Reverted f
  end.

(** The storage after a call. *)
Definition apply (s : Storage) (tx : Ctx * Call) : Storage :=
  match call tx.1 tx.2 s with
  | Success _ s' _ => s'
  | Reverted _ => s
  end.

Definition run (s : Storage) (txs : list (Ctx * Call)) : Storage :=
  fold_left apply txs s.

(** Storage right after deployment: empty mappings, counters at 1, the
    deployer as [Ownable] owner, the guard not entered. *)
Definition deploy (deployer : address) : Storage :=
  mkStorage (fun _ => Participant.zero) (fun _ => Product.zero)
    (fun _ => BatchTracking.zero) (fun _ => Transaction.zero) (fun _ => 0)
    (fun _ => []) 1 1 1 deployer false.

(** Senders are accounts or contracts, never [address(0)]. *)
Definition valid_tx (tx : Ctx * Call) : Prop := msg_sender tx.1 <> address0.

(** The storages the deployed contract can be in. *)
Definition reachable (s : Storage) : Prop :=
  exists deployer txs,
    deployer <> address0 /\ Forall valid_tx txs /\ s = run (deploy deployer) txs.

(** The revert reasons of the source under the names of the error kinds they
    stand for. *)
Module Err.
Definition AlreadyRegistered := Revert "Already registered".
Definition NotRegistered := Revert "Not a registered participant".
Definition UnauthorizedRole := Revert "Unauthorized role".
Definition NotCurrentOwner := Revert "Not the current owner".
Definition NotProductOwner := Revert "Not the product owner".
Definition InvalidBatch := Revert "Invalid batch ID".
Definition DuplicateCode := Revert "QR code already exists".
Definition InactiveOwner := Revert "New owner not registered".
Definition StageMustChange := Revert "Stage must change".
Definition StageMustProgress := Revert "Stage must progress forward".
Definition EmptyLocation := Revert "Location cannot be empty".
Definition NotBuyer := Revert "Not the buyer".
Definition AlreadyCompleted := Revert "Already completed".
Definition InsufficientPayment := Revert "Insufficient payment".
Definition ReentrantCall := Revert "ReentrancyGuard: reentrant call".
Definition NotContractOwner := Revert "Ownable: caller is not the owner".
End Err.

(** ** Projections of an outcome *)

Definition outcome_effects (o : Outcome) : list Effect :=
  match o with
  | Success _ _ effects => effects
  | Reverted _ => []
  end.

(** The storages shown to the recipients of the ether transfers of a call, in
    the order of the transfers. *)
Definition seen_by_recipients (effects : list Effect) : list Storage :=
  omap (fun e => match e with Send _ _ seen => Some seen | Emit _ => None end) effects.

(** The transfers of a call as (recipient, amount) pairs. *)
Definition payments (effects : list Effect) : list (address * uint256) :=
  omap (fun e => match e with Send to amount _ => Some (to, amount) | Emit _ => None end)
    effects.

(** ** Invariants of the storage *)

(** The three histories of every batch slot grow together, and a created
    batch has at least its creation entry. *)
Record HistInv (s : Storage) : Prop := {
  hist_next : 1 <= nextBatchId s;
  hist_eq : forall i,
    length (BatchTracking.ownershipHistory (batches s i)) =
      length (BatchTracking.locationHistory (batches s i)) /\
    length (BatchTracking.locationHistory (batches s i)) =
      length (BatchTracking.stageTimestamps (batches s i));
  hist_pos : forall i, 0 < i < nextBatchId s ->
    (1 <= length (BatchTracking.ownershipHistory (batches s i)))%nat
}.

(** Ids are handed out from 1 upwards, slots of ids not yet handed out are
    still zero, references between entities point at assigned ids, and the
    reentrancy guard is released between transactions. *)
Record Inv (s : Storage) : Prop := {
  inv_next_product : 1 <= nextProductId s;
  inv_next_batch : 1 <= nextBatchId s;
  inv_next_transaction : 1 <= nextTransactionId s;
  inv_product_fresh : forall i,
    ~ (0 < i < nextProductId s) -> products s i = Product.zero;
  inv_transaction_fresh : forall i,
    ~ (0 < i < nextTransactionId s) -> transactions s i = Transaction.zero;
  inv_batch_product : forall i,
    0 < i < nextBatchId s ->
    0 < BatchTracking.productId (batches s i) < nextProductId s;
  inv_guard : ReentrancyGuard_entered s = false
}.

(** Transaction [id] has been created with buyer [buyer] and is settled. *)
Record Settled (id : uint256) (buyer : address) (s : Storage) : Prop := {
  settled_assigned : 0 < id < nextTransactionId s;
  settled_buyer : Transaction.to (transactions s id) = buyer;
  settled_completed : Transaction.completed (transactions s id) = true;
  settled_guard : ReentrancyGuard_entered s = false
}.

(** [tx] is a registration sent by [p]. *)
Definition registers (p : address) (tx : Ctx * Call) : bool :=
  match tx.2 with
  | RegisterParticipant _ _ _ => bool_decide (msg_sender tx.1 = p)
  | _ => false
  end.

(** [p] sent no registration in [txs]. *)
Definition never_registered (p : address) (txs : list (Ctx * Call)) : Prop :=
  forallb (fun tx => negb (registers p tx)) txs = true.

(** The answer of [getProductInfo] for a zero product slot. *)
Definition zero_product_info
    : string * string * uint256 * address * Quality * bool * list string :=
  (EmptyString, EmptyString, 0, address0, Excellent, false, []).

(** ** A concrete ledger

    The setup of the test suite's ownership tests: account 9 deploys, 1
    registers as a farmer and 2 as a distributor, 1 creates a product and a
    batch for it.  Then 1 offers the batch to 2 for 100 and 2 pays 150.
    Account 3 stays unregistered. *)
Module Demo.
Definition admin : address := 9.
Definition farmer : address := 1.
Definition distributor : address := 2.
Definition outsider : address := 3.

Definition by_ (a : address) : Ctx := mkCtx a 1000 (fun _ _ => true).

Definition setup : list (Ctx * Call) :=
  [ (by_ farmer, RegisterParticipant "Green Valley Farm" "California" Farmer);
    (by_ distributor, RegisterParticipant "Dist Co" "Nevada" Distributor);
    (by_ farmer, CreateProduct "Tomatoes" "Roma" 1000 "2024-01-15" true []);
    (by_ farmer, CreateBatch 1 "QR_001" "Farm") ].

Definition ledger : Storage := run (deploy admin) setup.

Definition offer : Ctx * Call := (by_ farmer, CreateTransaction 1 distributor 100 "sale").

Definition offered : Storage := apply ledger offer.

Definition settle : Ctx * Call := (by_ distributor, CompleteTransaction 1 150).

Definition settled : Storage := apply offered settle.

(** The storage as the buyer sees it while receiving the refund of 50. *)
Definition refund_view : Storage :=
  List.last (seen_by_recipients (outcome_effects (call settle.1 settle.2 offered)))
    offered.
End Demo.

(** ** Further invariants of the storage *)

(** What a batch slot and its neighbours look like in a reachable storage:
    slots of batch ids not yet handed out are zero and have no provenance
    records, a created batch carries its own id, a created transaction names a
    created batch, and the code index only holds created batch ids, each under
    one code. *)
Record Linked (s : Storage) : Prop := {
  linked_batch_fresh : forall i,
    ~ (0 < i < nextBatchId s) -> batches s i = BatchTracking.zero;
  linked_log_fresh : forall i,
    ~ (0 < i < nextBatchId s) -> batchEnvironmentData s i = [];
  linked_batch_id : forall i,
    0 < i < nextBatchId s -> BatchTracking.batchId (batches s i) = i;
  linked_transaction_batch : forall i,
    0 < i < nextTransactionId s ->
    0 < Transaction.batchId (transactions s i) < nextBatchId s;
  linked_code_range : forall c,
    qrCodeToBatch s c <> 0 -> 0 < qrCodeToBatch s c < nextBatchId s;
  linked_code_inj : forall c1 c2,
    qrCodeToBatch s c1 <> 0 -> qrCodeToBatch s c1 = qrCodeToBatch s c2 -> c1 = c2
}.

(** The current owner, location and timestamp of a created batch are the
    last entries of its three histories. *)
Record Current (s : Storage) : Prop := {
  current_next : 1 <= nextBatchId s;
  current_owner : forall i, 0 < i < nextBatchId s ->
    List.last (BatchTracking.ownershipHistory (batches s i)) address0 =
      BatchTracking.currentOwner (batches s i) /\
    List.last (BatchTracking.locationHistory (batches s i)) EmptyString =
      BatchTracking.location (batches s i) /\
    List.last (BatchTracking.stageTimestamps (batches s i)) 0 =
      BatchTracking.timestamp (batches s i)
}.

(** The fields of a product that are written once, at creation. *)
Definition product_facts (p : Product.t)
    : uint256 * string * string * uint256 * string * address * bool * list string :=
  (Product.productId p, Product.productName p, Product.variety p, Product.quantity p,
   Product.harvestDate p, Product.farmer p, Product.isOrganic p,
   Product.certifications p).

(** The fields of a transaction that are written once, at creation. *)
Definition transaction_terms (x : Transaction.t)
    : uint256 * uint256 * address * address * uint256 * uint256 * string :=
  (Transaction.transactionId x, Transaction.batchId x, Transaction.from x,
   Transaction.to x, Transaction.timestamp x, Transaction.price x,
   Transaction.transactionType x).

(** [tx] is a call of [pause] or [unpause]. *)
Definition is_pause (tx : Ctx * Call) : bool :=
  match tx.2 with
  | Pause | Unpause => true
  | _ => false
  end.

(** The functions guarded by [onlyRegistered]. *)
Definition needs_registration (c : Call) : bool :=
  match c with
  | CreateProduct _ _ _ _ _ _ | CreateBatch _ _ _ | RecordEnvironmentData _ _ _ _ _
  | TransferBatchOwnership _ _ _ _ | UpdateQuality _ _ _ | AddBatchNote _ _ => true
  | _ => false
  end.

(** The functions guarded by [validBatch], with the batch id they name. *)
Definition named_batch (c : Call) : option uint256 :=
  match c with
  | RecordEnvironmentData b _ _ _ _ | TransferBatchOwnership b _ _ _
  | UpdateQuality b _ _ | AddBatchNote b _ | CreateTransaction b _ _ _ => Some b
  | _ => None
  end.

(** ** The API server (server.js)

    The routes reach the contract through its view functions; [contract] is
    [None] when the server has no contract to talk to.  Numbers are kept as
    numbers (the routes print them in decimal). *)
Module Server.

(** The product part of a response. *)
Definition product_json
    (info : string * string * uint256 * address * Quality * bool * list string)
    : string * string * uint256 * address * bool * Quality * list string :=
  let '(name, variety, quantity, farmer, quality, isOrganic, certifications) := info in
  (name, variety, quantity, farmer, isOrganic, quality, certifications).

(** The body of a successful [GET /api/track/:qrCode]. *)
Record TrackBody := mkTrackBody {
  track_batchId : uint256;
  track_qrCode : string;
  track_product : string * string * uint256 * address * bool * Quality * list string;
  track_currentStage : Stage;
  track_currentOwner : address;
  track_currentLocation : string;
  track_notes : string;
  track_environmentRecordCount : uint256;
  track_history : list address * list string * list uint256
}.

(** A response: a JSON body with status 200, an error the route answers on
    its own, or status 500 from the [catch] around a failed contract call. *)
Inductive Response (A : Type) :=
| Json (body : A)
| Error (status : Z) (error : string)
| Caught (cause : Failure).
Arguments Json {A} body.
Arguments Error {A} status error.
Arguments Caught {A} cause.

(** [await contract.f(...)] inside the route's [try]: a revert is thrown and
    lands in the [catch]. *)
Definition await {A B} (r : ViewResult A) (k : A -> Response B) : Response B :=
  match r with
  | Returns a => k a
  | Reverts f => Caught f
  end.

(** [GET /api/track/:qrCode] *)
Definition track (contract : option Storage) (qrCode : string) : Response TrackBody :=
  match contract with
  | None => Error 503 "Contract not available"
  | Some s =>
      await (view (getBatchByQR qrCode) s) (fun batchId =>
      if batchId =? 0 then Error 404 "QR code not found" else
      await (view (getBatchDetails batchId) s) (fun batchDetails =>
      let '(_, productId, currentStage, currentOwner, location, notes, count) :=
        batchDetails in
      await (view (getProductInfo productId) s) (fun productInfo =>
      await (view (getBatchHistory batchId) s) (fun history =>
      Json (mkTrackBody batchId qrCode (product_json productInfo) currentStage
              currentOwner location notes count history)))))
  end.

(** The indices visited by the loop of [GET /api/batch/:id/environment]:
    [for (let i = Math.max(0, recordCount - maxRecords); i < recordCount; i++)]
    with [maxRecords = Math.min(recordCount, parseInt(limit))].  Here and
    below [limit] is the integer that [parseInt(limit)] yields. *)
Definition recent_indices (recordCount limit : Z) : list Z :=
  let maxRecords := Z.min recordCount limit in
  let start := Z.max 0 (recordCount - maxRecords) in
  seqZ start (recordCount - start).

(** The records that loop collects from the contract: each index is asked
    for with [getEnvironmentData]; an index whose call fails is skipped (its
    [catch] only logs).  [None] when [getBatchDetails] itself fails and the
    route falls back to its cache. *)
Definition recent_records (s : Storage) (id : uint256) (limit : Z)
    : option (list (uint256 * int256 * uint256 * string * address * string)) :=
  match view (getBatchDetails id) s with
  | Reverts _ => None
  | Returns (_, _, _, _, _, _, recordCount) =>
      Some (omap (fun i =>
                    match view (getEnvironmentData id i) s with
                    | Returns envData => Some envData
                    | Reverts _ => None
                    end)
              (recent_indices recordCount limit))
  end.

(** [array.slice(start)] for an integer [start]. *)
Definition slice_from {A} (start : Z) (array : list A) : list A :=
  let len := Z.of_nat (length array) in
  let k := if start <? 0 then Z.max (len + start) 0 else Z.min start len in
  drop (Z.to_nat k) array.

(** The cached answer of [GET /api/batch/:id/environment]:
    [readings: cachedData.slice(-parseInt(limit)), count: cachedData.length]. *)
Definition cached_readings {A} (cachedData : list A) (limit : Z) : list A * Z :=
  (slice_from (- limit) cachedData, Z.of_nat (length cachedData)).

End Server.

(** * Proofs *)

#[local] Arguments alter : simpl never.
#[local] Arguments insert : simpl never.

(** Unfold a call down to its chain of checks and writes. *)
Ltac unfold_fns :=
  unfold call, view, dispatch, void, uint,
    registerParticipant, createProduct, createBatch, recordEnvironmentData,
    transferBatchOwnership, updateQuality, addBatchNote, createTransaction,
    completeTransaction, completeTransaction_body, updateParticipantReputation,
    deactivateParticipant, pause, unpause, Ownable_transferOwnership,
    Ownable_renounceOwnership,
    getBatchHistory, getEnvironmentDataCount, getEnvironmentData, getBatchByQR,
    getProductInfo, getBatchDetails,
    onlyRegistered, onlyRole, validBatch, onlyCurrentOwner, onlyOwner, nonReentrant,
    post_increment, transfer, emit, require, fail, modify, gets,
    mbind, M_bind, bind, mret, M_ret, ret in *.

(** Split on the next check of the goal. *)
Ltac step_if :=
  match goal with
  | |- context [if ?b then _ else _] => destruct b eqn:?
  end.

Ltac run_checks := unfold_fns; cbn beta iota; repeat (step_if; cbn).

(** Reads of updated mappings. *)
Ltac fn_same := rewrite ?fn_lookup_alter, ?fn_lookup_insert in *.
Ltac fn_cases :=
  fn_same;
  repeat match goal with
  | |- context [alter ?g ?k ?f ?i] =>
      destruct (decide (k = i)) as [?E|?E];
      [ try subst i; try rewrite <- E in *; fn_same
      | rewrite !(fn_lookup_alter_ne g f k i E) ]
  | |- context [<[?k := ?v]> ?f ?i] =>
      destruct (decide (k = i)) as [?E|?E];
      [ try subst i; try rewrite <- E in *; fn_same
      | rewrite !(fn_lookup_insert_ne f k i v E) ]
  end.

(** Turn the recorded outcomes of boolean checks into propositions. *)
Ltac bools :=
  repeat match goal with
  | H : _ && _ = true |- _ => apply andb_true_iff in H; destruct H
  | H : _ || _ = false |- _ => apply orb_false_iff in H; destruct H
  | H : negb _ = true |- _ => apply negb_true_iff in H
  | H : negb _ = false |- _ => apply negb_false_iff in H
  | H : (_ =? _) = true |- _ => apply Z.eqb_eq in H
  | H : (_ =? _) = false |- _ => apply Z.eqb_neq in H
  | H : (_ <? _) = true |- _ => apply Z.ltb_lt in H
  | H : (_ <? _) = false |- _ => apply Z.ltb_ge in H
  | H : (_ <=? _) = true |- _ => apply Z.leb_le in H
  | H : (_ <=? _) = false |- _ => apply Z.leb_gt in H
  | H : (_ >? _) = true |- _ => rewrite Z.gtb_ltb in H; apply Z.ltb_lt in H
  | H : (_ >? _) = false |- _ => rewrite Z.gtb_ltb in H; apply Z.ltb_ge in H
  | H : (_ >=? _) = true |- _ => rewrite Z.geb_leb in H; apply Z.leb_le in H
  | H : (_ >=? _) = false |- _ => rewrite Z.geb_leb in H; apply Z.leb_gt in H
  | H : bool_decide _ = true |- _ => apply bool_decide_eq_true_1 in H
  | H : bool_decide _ = false |- _ => apply bool_decide_eq_false_1 in H
  end.

Lemma run_app s txs1 txs2 : run s (txs1 ++ txs2) = run (run s txs1) txs2.
Proof. unfold run. apply fold_left_app. Qed.

Lemma run_cons s tx txs : run s (tx :: txs) = run (apply s tx) txs.
Proof. reflexivity. Qed.

(** A property kept by every transaction holds after any run. *)
Lemma run_preserves (P : Storage -> Prop) :
  (forall s tx, P s -> P (apply s tx)) ->
  forall txs s, P s -> P (run s txs).
Proof.
  intros Hstep txs. induction txs as [|tx txs IH]; intros s Hs; [exact Hs|].
  rewrite run_cons. apply IH, Hstep, Hs.
Qed.

Lemma run_preserves_valid (P : Storage -> Prop) :
  (forall s tx, valid_tx tx -> P s -> P (apply s tx)) ->
  forall txs s, Forall valid_tx txs -> P s -> P (run s txs).
Proof.
  intros Hstep txs. induction txs as [|tx txs IH]; intros s Hv Hs; [exact Hs|].
  inversion Hv; subst. rewrite run_cons. apply IH; [assumption|]. by apply Hstep.
Qed.

(** ** The expectations of the test suite, replayed on the model *)

Example test_duplicate_registration :
  call (Demo.by_ Demo.farmer) (RegisterParticipant "Another Farm" "Texas" Farmer)
    Demo.ledger = Reverted Err.AlreadyRegistered.
Proof. vm_compute. reflexivity. Qed.

Example test_batch_created :
  view (getBatchByQR "QR_001") Demo.ledger = Returns 1 /\
  view (getBatchDetails 1) Demo.ledger =
    Returns (1, 1, Harvested, Demo.farmer, "Farm", EmptyString, 0).
Proof. split; vm_compute; reflexivity. Qed.

Example test_duplicate_qr_code :
  call (Demo.by_ Demo.farmer) (CreateBatch 1 "QR_001" "Farm") Demo.ledger
    = Reverted Err.DuplicateCode.
Proof. vm_compute. reflexivity. Qed.

Example test_unknown_qr_code :
  view (getBatchByQR "NON_EXISTENT_QR") Demo.ledger = Returns 0.
Proof. vm_compute. reflexivity. Qed.

Example test_invalid_batch_id :
  view (getBatchDetails 999) Demo.ledger = Reverts Err.InvalidBatch /\
  view (getEnvironmentData 999 0) Demo.ledger = Reverts Err.InvalidBatch /\
  view (getEnvironmentData 1 0) Demo.ledger = Reverts (Revert "Invalid index").
Proof. repeat split; vm_compute; reflexivity. Qed.

Example test_ownership_history :
  view (getBatchHistory 1)
    (run Demo.ledger
       [ (Demo.by_ 4, RegisterParticipant "Fresh Market" "Arizona" Retailer);
         (Demo.by_ Demo.farmer,
          TransferBatchOwnership 1 Demo.distributor Processed "Processing");
         (Demo.by_ Demo.distributor, TransferBatchOwnership 1 4 InTransit "Store") ])
  = Returns ([Demo.farmer; Demo.distributor; 4], ["Farm"; "Processing"; "Store"],
             [1000; 1000; 1000]).
Proof. vm_compute. reflexivity. Qed.

Example test_transfer_validation :
  call (Demo.by_ Demo.distributor)
    (TransferBatchOwnership 1 Demo.distributor Processed "Store") Demo.ledger
    = Reverted Err.NotCurrentOwner /\
  call (Demo.by_ Demo.farmer)
    (TransferBatchOwnership 1 Demo.outsider Processed "Processing") Demo.ledger
    = Reverted Err.InactiveOwner /\
  call (Demo.by_ Demo.farmer)
    (TransferBatchOwnership 1 Demo.distributor Processed EmptyString) Demo.ledger
    = Reverted Err.EmptyLocation.
Proof. repeat split; vm_compute; reflexivity. Qed.

Example test_admin_only :
  call (Demo.by_ Demo.farmer) (DeactivateParticipant Demo.distributor) Demo.ledger
    = Reverted Err.NotContractOwner /\
  call (Demo.by_ Demo.outsider)
    (RecordEnvironmentData 1 500 6000 "Storage" "Unauthorized access attempt")
    Demo.ledger = Reverted Err.NotRegistered.
Proof. split; vm_compute; reflexivity. Qed.

(** The settlement scenario: the buyer pays 150 for a price of 100; the
    seller is sent 100, the buyer 50, and the batch changes hands. *)
Example scenario_settlement :
  payments (outcome_effects (call Demo.settle.1 Demo.settle.2 Demo.offered)) =
    [(Demo.farmer, 100); (Demo.distributor, 50)] /\
  BatchTracking.currentOwner (batches Demo.settled 1) = Demo.distributor /\
  BatchTracking.ownershipHistory (batches Demo.settled 1) =
    [Demo.farmer; Demo.distributor] /\
  BatchTracking.locationHistory (batches Demo.settled 1) = ["Farm"; "Farm"].
Proof. repeat split; vm_compute; reflexivity. Qed.

(** ** The history invariant *)

Lemma HistInv_deploy deployer : HistInv (deploy deployer).
Proof. constructor; cbn; intros; lia. Qed.

Lemma HistInv_apply s tx : HistInv s -> HistInv (apply s tx).
Proof.
  intros [Hn He Hp]. destruct tx as [ctx c]. unfold apply. cbn [fst snd].
  destruct c; run_checks; try (constructor; assumption).
  all: constructor; cbn; try lia; intros i;
    try (pose proof (He i)); try (pose proof (Hp i));
    try (pose proof (He (nextBatchId s)));
    fn_cases; cbn in *; rewrite ?length_app; cbn; try lia.
Qed.

Lemma HistInv_run s txs : HistInv s -> HistInv (run s txs).
Proof. apply run_preserves. intros. by apply HistInv_apply. Qed.

(** Batch ids, once handed out, stay handed out. *)
Lemma nextBatchId_apply s tx : nextBatchId s <= nextBatchId (apply s tx).
Proof.
  destruct tx as [ctx c]. unfold apply. cbn [fst snd].
  destruct c; run_checks; lia.
Qed.

Lemma nextBatchId_run txs : forall s, nextBatchId s <= nextBatchId (run s txs).
Proof.
  induction txs as [|tx txs IH]; intros s; [reflexivity|].
  rewrite run_cons. pose proof (nextBatchId_apply s tx). pose proof (IH (apply s tx)). lia.
Qed.

(** What a successful [createBatch] hands back. *)
Lemma createBatch_success ctx p code loc s r s1 eff :
  call ctx (CreateBatch p code loc) s = Success r s1 eff ->
  r = RUint (nextBatchId s) /\
  nextBatchId s1 = nextBatchId s + 1 /\
  qrCodeToBatch s code = 0 /\
  qrCodeToBatch s1 code = nextBatchId s /\
  Product.farmer (products s p) = msg_sender ctx.
Proof.
  run_checks; intros H; inversion H; subst; cbn; fn_same.
  repeat split; try lia.
Qed.

(** C2. For every batch slot, after any sequence of transactions from
    deployment, the owner, location and timestamp histories have the same
    length; for every batch that has been created that length is at least 1,
    and it stays so from the successful [createBatch] on, whatever
    transactions follow. *)
Theorem history_lengths_invariant deployer txs :
  let s := run (deploy deployer) txs in
  (forall i,
     length (BatchTracking.ownershipHistory (batches s i)) =
       length (BatchTracking.locationHistory (batches s i)) /\
     length (BatchTracking.locationHistory (batches s i)) =
       length (BatchTracking.stageTimestamps (batches s i))) /\
  (forall i, 0 < i < nextBatchId s ->
     (1 <= length (BatchTracking.ownershipHistory (batches s i)))%nat) /\
  (forall ctx p code loc id s1 eff later,
     call ctx (CreateBatch p code loc) s = Success (RUint id) s1 eff ->
     (1 <= length (BatchTracking.ownershipHistory (batches (run s1 later) id)))%nat).
Proof.
  intros s.
  assert (Hs : HistInv s) by apply HistInv_run, HistInv_deploy.
  split; [apply Hs|]. split; [apply Hs|].
  intros ctx p code loc id s1 eff later Hc.
  assert (Hs1 : HistInv s1).
  { pose proof (HistInv_apply s (ctx, CreateBatch p code loc) Hs) as H.
    unfold apply in H. cbn [fst snd] in H. by rewrite Hc in H. }
  apply createBatch_success in Hc as (Hr & Hn & _).
  inversion Hr; subst id.
  apply (hist_pos _ (HistInv_run s1 later Hs1)).
  pose proof (nextBatchId_run later s1). pose proof (hist_next _ Hs). lia.
Qed.

Lemma history_lengths_invariant_witness :
  length (BatchTracking.ownershipHistory (batches Demo.ledger 1)) =
    length (BatchTracking.locationHistory (batches Demo.ledger 1)) /\
  (1 <= length (BatchTracking.ownershipHistory (batches Demo.ledger 1%Z)))%nat.
Proof.
  pose proof (history_lengths_invariant Demo.admin Demo.setup) as H.
  split; [apply (proj1 H 1) | apply (proj1 (proj2 H) 1); vm_compute; split; reflexivity].
Defined.

(** ** The id invariant *)

Lemma Inv_deploy deployer : Inv (deploy deployer).
Proof. constructor; cbn; intros; try reflexivity; lia. Qed.

Lemma Inv_apply s tx : valid_tx tx -> Inv s -> Inv (apply s tx).
Proof.
  intros Hv [Hp Hb Ht Hpf Htf Hbp Hg]. destruct tx as [ctx c].
  unfold valid_tx, address0 in Hv. unfold apply. cbn [fst snd] in *.
  destruct c; run_checks; try (constructor; assumption).
  all: constructor; cbn; try lia; try assumption; try reflexivity; intros i Hi;
    try (pose proof (Hpf i)); try (pose proof (Htf i)); try (pose proof (Hbp i));
    fn_cases; cbn in *; try lia; auto with lia.
  - (* createBatch: the product named by the new batch has been created *)
    bools. destruct (decide (0 < _productId < nextProductId s)) as [|Hn]; [lia|].
    rewrite (Hpf _ Hn) in *. cbn in *. unfold address0 in *. congruence.
  - (* updateQuality, with a reason: the batch's product has been created *)
    bools. pose proof (Hbp _batchId). lia.
  - bools. pose proof (Hbp _batchId). lia.
  - (* completeTransaction: the caller is the buyer of a created transaction *)
    bools. rewrite (Htf _ Hi) in *. cbn in *. unfold address0 in *. congruence.
  - bools. rewrite (Htf _ Hi) in *. cbn in *. unfold address0 in *. congruence.
Qed.

Lemma Inv_run s txs : Forall valid_tx txs -> Inv s -> Inv (run s txs).
Proof. apply run_preserves_valid. intros. by apply Inv_apply. Qed.

Lemma reachable_Inv s : reachable s -> Inv s.
Proof.
  intros (deployer & txs & _ & Hv & ->). apply Inv_run; [assumption|apply Inv_deploy].
Qed.

Lemma reachable_apply s tx : reachable s -> valid_tx tx -> reachable (apply s tx).
Proof.
  intros (deployer & txs & Hd & Hv & ->) Htx.
  exists deployer, (txs ++ [tx]). split; [assumption|]. split.
  - apply Forall_app. split; [assumption|]. by constructor.
  - by rewrite run_app.
Qed.

(** ** Stage progression *)

(** The stage of a created batch never moves backwards. *)
Lemma stage_apply s tx b :
  0 < b < nextBatchId s ->
  0 < b < nextBatchId (apply s tx) /\
  uint8_of_Stage (BatchTracking.currentStage (batches s b)) <=
    uint8_of_Stage (BatchTracking.currentStage (batches (apply s tx) b)).
Proof.
  intros Hb. destruct tx as [ctx c]. unfold apply. cbn [fst snd].
  destruct c; run_checks; try (split; [lia|reflexivity]).
  all: split; [lia|]; fn_cases; cbn; bools; lia.
Qed.

Lemma stage_run txs : forall s b,
  0 < b < nextBatchId s ->
  uint8_of_Stage (BatchTracking.currentStage (batches s b)) <=
    uint8_of_Stage (BatchTracking.currentStage (batches (run s txs) b)).
Proof.
  induction txs as [|tx txs IH]; intros s b Hb; [reflexivity|].
  rewrite run_cons. destruct (stage_apply s tx b Hb) as [Hb' Hle].
  specialize (IH _ _ Hb'). lia.
Qed.

(** C3. [transferBatchOwnership] is accepted only with a stage strictly
    greater than the batch's current one, and then sets it; with an equal or
    lower stage the call is rejected and the storage (stage, owner, location
    and histories included) is what it was.  For an existing batch, called by
    its registered owner for an active new owner, the rejection is "Stage must
    change" for an equal stage and "Stage must progress forward" for a lower
    one (the two non-monotonic-stage rejections).  Hence the stage of a
    created batch never decreases over any run: no stage is revisited. *)
Theorem transfer_needs_stage_progress s ctx b newOwner newStage newLocation :
  let c := TransferBatchOwnership b newOwner newStage newLocation in
  let cur := BatchTracking.currentStage (batches s b) in
  (forall r s1 eff, call ctx c s = Success r s1 eff ->
     uint8_of_Stage cur < uint8_of_Stage newStage /\
     BatchTracking.currentStage (batches s1 b) = newStage) /\
  (uint8_of_Stage newStage <= uint8_of_Stage cur ->
     (exists f, call ctx c s = Reverted f) /\ apply s (ctx, c) = s) /\
  (0 < b < nextBatchId s ->
   BatchTracking.currentOwner (batches s b) = msg_sender ctx ->
   Participant.isActive (participants s (msg_sender ctx)) = true ->
   Participant.isActive (participants s newOwner) = true ->
     (newStage = cur -> call ctx c s = Reverted Err.StageMustChange) /\
     (uint8_of_Stage newStage < uint8_of_Stage cur ->
      call ctx c s = Reverted Err.StageMustProgress)) /\
  (forall later, 0 < b < nextBatchId s ->
     uint8_of_Stage cur <=
       uint8_of_Stage (BatchTracking.currentStage (batches (run s later) b))).
Proof.
  intros c cur. subst c cur. repeat split.
  - revert H. run_checks; intros H; inversion H; subst; bools. lia.
  - revert H. run_checks; intros H; inversion H; subst; cbn; by fn_same.
  - run_checks; eauto. bools. lia.
  - unfold apply. cbn [fst snd]. run_checks; try reflexivity. bools. lia.
  - intros ->. run_checks; bools; try reflexivity; try lia; try congruence.
  - intros Hlt. run_checks; bools; try reflexivity; try lia; try congruence.
    subst. lia.
  - intros. by apply stage_run.
Qed.

Lemma transfer_needs_stage_progress_witness :
  call (Demo.by_ Demo.farmer)
    (TransferBatchOwnership 1 Demo.distributor Harvested "Processing") Demo.ledger
  = Reverted Err.StageMustChange.
Proof.
  apply (transfer_needs_stage_progress Demo.ledger (Demo.by_ Demo.farmer) 1
           Demo.distributor Harvested "Processing");
    vm_compute; try split; reflexivity.
Defined.

(** ** Rejected calls *)

(** C4. A rejected call leaves the storage exactly as it was.  Moreover,
    except when an ether transfer fails, the function had not written to any
    entity (participants, products, batches, code index, provenance logs,
    transactions, id counters) nor produced any effect when it gave up: every
    check comes before the first write. *)
Theorem rejected_call_changes_nothing s ctx c f :
  call ctx c s = Reverted f ->
  apply s (ctx, c) = s /\
  (f <> TransferFailed ->
   exists s_fail, dispatch ctx c s [] = Fail f s_fail [] /\ same_entities s_fail s).
Proof.
  intros H. split.
  - unfold apply. cbn [fst snd]. by rewrite H.
  - revert H. destruct c; run_checks; intros H; inversion H; subst; intros Hf;
      try congruence; eexists; (split; [reflexivity|]); by repeat split.
Qed.

Lemma rejected_call_changes_nothing_witness :
  apply Demo.ledger
    (Demo.by_ Demo.farmer,
     TransferBatchOwnership 1 Demo.distributor Harvested "Processing") = Demo.ledger.
Proof.
  apply (rejected_call_changes_nothing Demo.ledger (Demo.by_ Demo.farmer)
           (TransferBatchOwnership 1 Demo.distributor Harvested "Processing")
           Err.StageMustChange).
  vm_compute. reflexivity.
Defined.

(** ** The code index *)

(** An entry of the code index, once non-zero, is never written again. *)
Lemma qrCodeToBatch_apply s tx code :
  qrCodeToBatch s code <> 0 ->
  qrCodeToBatch (apply s tx) code = qrCodeToBatch s code.
Proof.
  intros Hne. destruct tx as [ctx c]. unfold apply. cbn [fst snd].
  destruct c; run_checks; try reflexivity.
  fn_cases; [|reflexivity]. bools. congruence.
Qed.

Lemma qrCodeToBatch_run txs : forall s code,
  qrCodeToBatch s code <> 0 ->
  qrCodeToBatch (run s txs) code = qrCodeToBatch s code.
Proof.
  induction txs as [|tx txs IH]; intros s code Hne; [reflexivity|].
  rewrite run_cons. pose proof (qrCodeToBatch_apply s tx code Hne) as Heq.
  rewrite IH; congruence.
Qed.

(** C5. After a successful [createBatch] with code [code] that returned
    [id], whatever transactions follow: [id] is not 0, [getBatchByQR code]
    answers [id], and every further [createBatch] with [code] is rejected and
    changes nothing.  The rejection comes from the duplicate-code check or
    from one of the three caller checks in front of it; for a registered
    farmer creating a batch of a product of their own it is "QR code already
    exists". *)
Theorem qr_code_is_write_once s ctx p code loc id s1 eff :
  reachable s ->
  call ctx (CreateBatch p code loc) s = Success (RUint id) s1 eff ->
  forall later,
    let s2 := run s1 later in
    id <> 0 /\
    view (getBatchByQR code) s2 = Returns id /\
    forall ctx' p' loc',
      let c' := CreateBatch p' code loc' in
      apply s2 (ctx', c') = s2 /\
      (exists f, call ctx' c' s2 = Reverted f /\
         f ∈ [Err.NotRegistered; Err.UnauthorizedRole; Err.NotProductOwner;
              Err.DuplicateCode]) /\
      (Participant.isActive (participants s2 (msg_sender ctx')) = true ->
       Participant.role (participants s2 (msg_sender ctx')) = Farmer ->
       Product.farmer (products s2 p') = msg_sender ctx' ->
       call ctx' c' s2 = Reverted Err.DuplicateCode).
Proof.
  intros Hr Hc later s2.
  pose proof (inv_next_batch _ (reachable_Inv _ Hr)) as Hn.
  apply createBatch_success in Hc as (Hid & _ & _ & Hq & _).
  inversion Hid; subst id. clear Hid.
  assert (Hne : nextBatchId s <> 0) by lia.
  assert (Hq2 : qrCodeToBatch s2 code = nextBatchId s).
  { subst s2. rewrite qrCodeToBatch_run; congruence. }
  split; [assumption|]. split; [unfold_fns; by rewrite Hq2|].
  intros ctx' p' loc' c'. subst c'. repeat split.
  - unfold apply. cbn [fst snd]. run_checks; try reflexivity. bools. congruence.
  - run_checks; bools; try congruence;
      eexists; (split; [reflexivity|]); rewrite !elem_of_cons; auto 10.
  - intros Ha Hrole Hf. run_checks; bools; try reflexivity; congruence.
Qed.

Lemma qr_code_is_write_once_witness :
  view (getBatchByQR "QR_002")
    (run (apply Demo.ledger (Demo.by_ Demo.farmer, CreateBatch 1 "QR_002" "Farm"))
       [Demo.offer; Demo.settle]) = Returns 2.
Proof.
  apply (qr_code_is_write_once Demo.ledger (Demo.by_ Demo.farmer) 1 "QR_002" "Farm" 2
           (apply Demo.ledger (Demo.by_ Demo.farmer, CreateBatch 1 "QR_002" "Farm"))
           (outcome_effects
              (call (Demo.by_ Demo.farmer) (CreateBatch 1 "QR_002" "Farm") Demo.ledger))).
  - exists Demo.admin, Demo.setup. split; [discriminate|]. split; [|reflexivity].
    repeat constructor; discriminate.
  - vm_compute. reflexivity.
Defined.

(** ** Product lookups *)

(** C6 (as the code has it). [getProductInfo] never fails: it answers with
    the fields of the product slot, whatever the id.  In a reachable storage
    the slot of an id that was never assigned (0, or not below
    [nextProductId]) is zero, so the answer is the all-zero product. *)
Theorem getProductInfo_never_fails s productId :
  (exists info, view (getProductInfo productId) s = Returns info) /\
  (reachable s -> ~ (0 < productId < nextProductId s) ->
   view (getProductInfo productId) s = Returns zero_product_info).
Proof.
  split; [unfold_fns; eauto|].
  intros Hr Hn. unfold_fns.
  by rewrite (inv_product_fresh _ (reachable_Inv _ Hr) _ Hn).
Qed.

Lemma getProductInfo_never_fails_witness :
  view (getProductInfo 7) Demo.ledger = Returns zero_product_info.
Proof.
  apply (getProductInfo_never_fails Demo.ledger 7).
  - exists Demo.admin, Demo.setup. split; [discriminate|]. split; [|reflexivity].
    repeat constructor; discriminate.
  - vm_compute. intros [_ H]. discriminate H.
Defined.

(** Product id 7 was never assigned in the demo ledger (one product exists),
    and id 0 never is; [getProductInfo] answers for both instead of failing. *)
Lemma getProductInfo_answers_for_unassigned_id :
  nextProductId Demo.ledger = 2 /\
  ~ (exists f, view (getProductInfo 7) Demo.ledger = Reverts f) /\
  ~ (exists f, view (getProductInfo 0) Demo.ledger = Reverts f).
Proof.
  split; [reflexivity|]. split; intros [f H]; vm_compute in H; discriminate H.
Qed.

(** ** The provenance log *)

(** C7 (as the code has it). Called by an active participant for a created
    batch with a non-empty location, [recordEnvironmentData] succeeds and
    appends exactly one record, carrying the caller and the block time, at the
    end of that batch's log: the record sits at the index that
    [getEnvironmentDataCount] answered before the call, the count grows by
    one, and the logs of the other batches are untouched.  The function
    itself hands back nothing. *)
Theorem recordEnvironmentData_appends s ctx b temp hum loc notes :
  Participant.isActive (participants s (msg_sender ctx)) = true ->
  0 < b < nextBatchId s ->
  0 < bytes_length loc ->
  let record :=
    EnvironmentRecord.mk (block_timestamp ctx) temp hum loc (msg_sender ctx) notes in
  let n := Z.of_nat (length (batchEnvironmentData s b)) in
  view (getEnvironmentDataCount b) s = Returns n /\
  exists s1 eff,
    call ctx (RecordEnvironmentData b temp hum loc notes) s = Success RVoid s1 eff /\
    batchEnvironmentData s1 b = batchEnvironmentData s b ++ [record] /\
    (forall b', b' <> b -> batchEnvironmentData s1 b' = batchEnvironmentData s b') /\
    view (getEnvironmentDataCount b) s1 = Returns (n + 1) /\
    view (getEnvironmentData b n) s1 =
      Returns (block_timestamp ctx, temp, hum, loc, msg_sender ctx, notes).
Proof.
  intros Ha Hb Hl record n.
  assert (Hvalid : (b >? 0) && (b <? nextBatchId s) = true).
  { apply andb_true_iff. split; [rewrite Z.gtb_ltb|]; apply Z.ltb_lt; lia. }
  assert (Hloc : (bytes_length loc >? 0) = true).
  { rewrite Z.gtb_ltb. apply Z.ltb_lt. lia. }
  split.
  { unfold_fns. by rewrite Hvalid. }
  eexists _, _. split.
  { unfold_fns. rewrite Ha. cbn. rewrite Hvalid. cbn. rewrite Hloc. cbn. reflexivity. }
  cbn. fn_same. split; [reflexivity|]. split.
  { intros b' Hne. by rewrite fn_lookup_alter_ne. }
  split.
  - unfold_fns. cbn. rewrite Hvalid. cbn. fn_same.
    rewrite length_app. cbn. f_equal. subst n. lia.
  - unfold_fns. cbn. rewrite Hvalid. cbn. fn_same.
    match goal with
    | |- context [n <? ?len] => assert (Hlt : (n <? len) = true)
    end.
    { apply Z.ltb_lt. rewrite length_app. cbn. subst n. lia. }
    rewrite Hlt. cbn. subst n. rewrite Nat2Z.id.
    rewrite lookup_app_r by lia. rewrite Nat.sub_diag. reflexivity.
Qed.

Lemma recordEnvironmentData_appends_witness :
  view (getEnvironmentDataCount 1) Demo.ledger = Returns 0 /\
  exists s1 eff,
    call (Demo.by_ Demo.distributor)
      (RecordEnvironmentData 1 380 7000 "Transport" "Reading 2") Demo.ledger
      = Success RVoid s1 eff /\
    view (getEnvironmentData 1 0) s1 =
      Returns (1000, 380, 7000, "Transport", Demo.distributor, "Reading 2").
Proof.
  destruct (recordEnvironmentData_appends Demo.ledger (Demo.by_ Demo.distributor)
              1 380 7000 "Transport" "Reading 2")
    as (Hn & s1 & eff & Hc & _ & _ & _ & Hg);
    [reflexivity | vm_compute; split; reflexivity | reflexivity |].
  split; [exact Hn|]. exists s1, eff. split; [exact Hc | exact Hg].
Defined.

(** In the demo ledger the log of batch 1 is empty, so the index of a new
    record is 0; the successful call hands back nothing, not that index. *)
Lemma recordEnvironmentData_returns_no_index :
  view (getEnvironmentDataCount 1) Demo.ledger = Returns 0 /\
  (exists s1 eff,
     call (Demo.by_ Demo.distributor)
       (RecordEnvironmentData 1 380 7000 "Transport" "Reading 2") Demo.ledger
     = Success RVoid s1 eff) /\
  ~ (exists s1 eff,
       call (Demo.by_ Demo.distributor)
         (RecordEnvironmentData 1 380 7000 "Transport" "Reading 2") Demo.ledger
       = Success (RUint 0) s1 eff).
Proof.
  split; [vm_compute; reflexivity|]. split.
  - exists (apply Demo.ledger
              (Demo.by_ Demo.distributor,
               RecordEnvironmentData 1 380 7000 "Transport" "Reading 2")),
           [Emit (EnvironmentDataRecorded 1 380 7000 Demo.distributor)].
    vm_compute. reflexivity.
  - intros (s1 & eff & H). vm_compute in H. discriminate H.
Qed.

(** ** The participant registry *)

Lemma unregistered_apply s tx p :
  registers p tx = false ->
  participants s p = Participant.zero ->
  participants (apply s tx) p = Participant.zero.
Proof.
  intros Hreg Hz. destruct tx as [ctx c]. unfold apply, registers in *.
  cbn [fst snd] in *.
  destruct c; run_checks; try assumption; fn_cases; bools; try assumption;
    try congruence.
  - rewrite Hz in *. discriminate.
  - rewrite Hz. reflexivity.
Qed.

Lemma unregistered_run txs : forall s p,
  never_registered p txs ->
  participants s p = Participant.zero ->
  participants (run s txs) p = Participant.zero.
Proof.
  unfold never_registered.
  induction txs as [|tx txs IH]; intros s p Hn Hz; [assumption|].
  cbn in Hn. apply andb_true_iff in Hn as [Htx Hn]. apply negb_true_iff in Htx.
  rewrite run_cons. apply IH; [assumption|]. by apply unregistered_apply.
Qed.

(** C8 (as the code has it). [deactivateParticipant] has no existence check:
    for a principal that never registered, a call by the contract owner
    succeeds, with no event, and every storage slot reads as before; a call
    by anyone else is rejected by [onlyOwner]. *)
Theorem deactivate_unregistered_is_noop deployer txs p ctx :
  never_registered p txs ->
  let s := run (deploy deployer) txs in
  (msg_sender ctx = Ownable_owner s ->
   exists s1, call ctx (DeactivateParticipant p) s = Success RVoid s1 [] /\
              same_storage s1 s) /\
  (msg_sender ctx <> Ownable_owner s ->
   call ctx (DeactivateParticipant p) s = Reverted Err.NotContractOwner).
Proof.
  intros Hn s.
  assert (Hz : participants s p = Participant.zero).
  { apply unregistered_run; [assumption|reflexivity]. }
  split; intros Ho.
  - eexists. split.
    + unfold_fns. rewrite Ho, Z.eqb_refl. cbn. reflexivity.
    + repeat split. intros a. cbn. fn_cases; [|reflexivity]. by rewrite Hz.
  - unfold_fns. apply not_eq_sym, Z.eqb_neq in Ho. by rewrite Ho.
Qed.

Lemma deactivate_unregistered_is_noop_witness :
  exists s1,
    call (Demo.by_ Demo.admin) (DeactivateParticipant Demo.outsider) Demo.ledger
      = Success RVoid s1 [] /\
    same_storage s1 Demo.ledger.
Proof.
  apply (deactivate_unregistered_is_noop Demo.admin Demo.setup Demo.outsider
           (Demo.by_ Demo.admin)); reflexivity.
Defined.

(** Account 3 never registered in the demo ledger; the owner's
    [deactivateParticipant] for it is not rejected. *)
Lemma deactivate_unregistered_not_rejected :
  never_registered Demo.outsider Demo.setup /\
  ~ (exists f,
       call (Demo.by_ Demo.admin) (DeactivateParticipant Demo.outsider) Demo.ledger
       = Reverted f).
Proof.
  split; [reflexivity|]. intros [f H]. vm_compute in H. discriminate H.
Qed.

(** C10. Registration is rejected with "Already registered" exactly when the
    caller's record is active.  So after [deactivateParticipant p] the
    principal [p] can register again, with any non-empty name and location:
    the call succeeds and the stored record is the new name, location and
    role, active, with reputation 100. *)
Theorem deactivated_participant_can_reregister s octx p s1 eff1 ctx name loc role :
  call octx (DeactivateParticipant p) s = Success RVoid s1 eff1 ->
  msg_sender ctx = p ->
  0 < bytes_length name ->
  0 < bytes_length loc ->
  Participant.isActive (participants s1 p) = false /\
  (exists s2 eff2,
     call ctx (RegisterParticipant name loc role) s1 = Success RVoid s2 eff2 /\
     participants s2 p = Participant.mk name loc role true 100) /\
  (forall s' ctx' name' loc' role',
     call ctx' (RegisterParticipant name' loc' role') s' = Reverted Err.AlreadyRegistered
     <-> Participant.isActive (participants s' (msg_sender ctx')) = true).
Proof.
  intros Hd Hp Hname Hloc.
  assert (Hin : Participant.isActive (participants s1 p) = false).
  { revert Hd. run_checks; intros H; inversion H; subst. cbn. by fn_same. }
  split; [assumption|]. split.
  - subst p. eexists _, _. unfold_fns. rewrite Hin. cbn.
    assert (Hn' : (bytes_length name >? 0) = true)
      by (rewrite Z.gtb_ltb; apply Z.ltb_lt; lia).
    assert (Hl' : (bytes_length loc >? 0) = true)
      by (rewrite Z.gtb_ltb; apply Z.ltb_lt; lia).
    rewrite Hn', Hl'. cbn. split; [reflexivity|]. cbn. by fn_same.
  - intros s' ctx' name' loc' role'. split.
    + unfold Err.AlreadyRegistered.
      run_checks; intros H; bools; try assumption; discriminate H.
    + intros Ha. unfold_fns. by rewrite Ha.
Qed.

Lemma deactivated_participant_can_reregister_witness :
  exists s2 eff2,
    call (Demo.by_ Demo.farmer) (RegisterParticipant "New Farm" "Oregon" Retailer)
      (apply Demo.ledger (Demo.by_ Demo.admin, DeactivateParticipant Demo.farmer))
      = Success RVoid s2 eff2 /\
    participants s2 Demo.farmer = Participant.mk "New Farm" "Oregon" Retailer true 100.
Proof.
  apply (deactivated_participant_can_reregister Demo.ledger (Demo.by_ Demo.admin)
           Demo.farmer
           (apply Demo.ledger (Demo.by_ Demo.admin, DeactivateParticipant Demo.farmer))
           [] (Demo.by_ Demo.farmer) "New Farm" "Oregon" Retailer);
    vm_compute; reflexivity.
Defined.

(** ** Settlement *)

(** What a successful [createTransaction] hands back and stores. *)
Lemma createTransaction_success ctx b buyer price ty s r s1 eff :
  call ctx (CreateTransaction b buyer price ty) s = Success r s1 eff ->
  r = RUint (nextTransactionId s) /\
  nextTransactionId s1 = nextTransactionId s + 1 /\
  transactions s1 (nextTransactionId s) =
    Transaction.mk (nextTransactionId s) b (msg_sender ctx) buyer (block_timestamp ctx)
      price ty false.
Proof.
  run_checks; intros H; inversion H; subst; cbn; fn_same. repeat split.
Qed.

Lemma Settled_apply id buyer s tx : Settled id buyer s -> Settled id buyer (apply s tx).
Proof.
  intros [Ha Hb Hc Hg]. destruct tx as [ctx c]. unfold apply. cbn [fst snd].
  destruct c; run_checks; try (constructor; assumption).
  all: constructor; cbn; try lia; try assumption; try reflexivity;
    fn_cases; cbn; try assumption; try reflexivity; lia.
Qed.

Lemma Settled_run id buyer s txs : Settled id buyer s -> Settled id buyer (run s txs).
Proof. apply run_preserves. intros. by apply Settled_apply. Qed.

(** A settled transaction rejects every further completion. *)
Lemma Settled_rejects id buyer s ctx value :
  Settled id buyer s ->
  call ctx (CompleteTransaction id value) s =
    Reverted (if bool_decide (msg_sender ctx = buyer)
              then Err.AlreadyCompleted else Err.NotBuyer).
Proof.
  intros [Ha Hb Hc Hg]. unfold_fns. rewrite Hg. cbn. rewrite Hb.
  case_bool_decide as Hs.
  - rewrite Hs, Z.eqb_refl. cbn. rewrite Hc. reflexivity.
  - apply Z.eqb_neq in Hs. rewrite Hs. reflexivity.
Qed.

(** C9. In a reachable storage [completeTransaction] is rejected, and the
    storage stays as it was, for a transaction id that [createTransaction]
    never handed out (ids are handed out from 1 up to [nextTransactionId]
    exclusive): the slot's buyer is [address(0)], which no caller is.  For any
    id the checks come in this order: "Not the buyer" when the caller is not
    the stored buyer; else "Already completed" when the completed flag is
    set; else "Insufficient payment" when the ether sent is less than the
    price. *)
Theorem completeTransaction_rejections s ctx id value :
  reachable s ->
  let c := CompleteTransaction id value in
  let txn := transactions s id in
  (~ (0 < id < nextTransactionId s) -> msg_sender ctx <> address0 ->
     call ctx c s = Reverted Err.NotBuyer /\ apply s (ctx, c) = s) /\
  (msg_sender ctx <> Transaction.to txn ->
     call ctx c s = Reverted Err.NotBuyer /\ apply s (ctx, c) = s) /\
  (msg_sender ctx = Transaction.to txn -> Transaction.completed txn = true ->
     call ctx c s = Reverted Err.AlreadyCompleted /\ apply s (ctx, c) = s) /\
  (msg_sender ctx = Transaction.to txn -> Transaction.completed txn = false ->
   value < Transaction.price txn ->
     call ctx c s = Reverted Err.InsufficientPayment /\ apply s (ctx, c) = s).
Proof.
  intros Hr c txn. subst c txn.
  pose proof (reachable_Inv _ Hr) as HI. pose proof (inv_guard _ HI) as Hg.
  assert (Hrej : forall f, call ctx (CompleteTransaction id value) s = Reverted f ->
            call ctx (CompleteTransaction id value) s = Reverted f /\
            apply s (ctx, CompleteTransaction id value) = s).
  { intros f Hf. split; [assumption|]. unfold apply. cbn [fst snd]. by rewrite Hf. }
  assert (Hnb : msg_sender ctx <> Transaction.to (transactions s id) ->
            call ctx (CompleteTransaction id value) s = Reverted Err.NotBuyer).
  { intros Hne. unfold_fns. rewrite Hg. cbn. apply Z.eqb_neq in Hne. by rewrite Hne. }
  split; [|split; [|split]].
  - intros Hn Hs. apply Hrej, Hnb.
    rewrite (inv_transaction_fresh _ HI _ Hn). cbn. assumption.
  - intros Hne. apply Hrej, Hnb, Hne.
  - intros He Hc. apply Hrej. unfold_fns. rewrite Hg. cbn.
    rewrite <- He, Z.eqb_refl. cbn. by rewrite Hc.
  - intros He Hc Hlt. apply Hrej. unfold_fns. rewrite Hg. cbn.
    rewrite <- He, Z.eqb_refl. cbn. rewrite Hc. cbn.
    assert (Hge : (value >=? Transaction.price (transactions s id)) = false)
      by (rewrite Z.geb_leb; apply Z.leb_gt; lia).
    by rewrite Hge.
Qed.

Lemma completeTransaction_rejections_witness :
  call (Demo.by_ Demo.distributor) (CompleteTransaction 5 150) Demo.ledger
    = Reverted Err.NotBuyer /\
  apply Demo.ledger (Demo.by_ Demo.distributor, CompleteTransaction 5 150) = Demo.ledger.
Proof.
  refine (proj1 (completeTransaction_rejections Demo.ledger
                   (Demo.by_ Demo.distributor) 5 150 _) _ _).
  - exists Demo.admin, Demo.setup. split; [discriminate|]. split; [|reflexivity].
    repeat constructor; discriminate.
  - vm_compute. intros [_ H]. discriminate H.
  - discriminate.
Defined.

(** C1 (as the code has it). Let [completeTransaction] succeed on
    transaction [id], called by a non-zero sender in a reachable storage.
    Then the caller is the stored buyer, the transaction was not completed
    and now is, and the batch belongs to the buyer with one more history
    entry.  The ether goes to the seller (the price) and then to the caller
    (the excess, if any), and at each of these transfers the storage already
    has the completed flag set and the batch reassigned.  After that, whatever
    transactions follow, every call of [completeTransaction] on [id] is
    rejected and changes nothing: with "Already completed" when made by the
    buyer, with "Not the buyer" otherwise.  A call made during one of the
    transfers is stopped by the reentrancy guard, before the completed flag
    is looked at; the function body by itself, run for the buyer on the
    storage of that moment, would stop at "Already completed" without a
    write. *)
Theorem completeTransaction_settles_once s ctx id value s1 eff :
  reachable s ->
  msg_sender ctx <> address0 ->
  call ctx (CompleteTransaction id value) s = Success RVoid s1 eff ->
  let txn := transactions s id in
  let bid := Transaction.batchId txn in
  let buyer := Transaction.to txn in
  let history := BatchTracking.ownershipHistory (batches s bid) in
  (msg_sender ctx = buyer /\
   Transaction.completed txn = false /\
   Transaction.completed (transactions s1 id) = true /\
   BatchTracking.currentOwner (batches s1 bid) = buyer /\
   BatchTracking.ownershipHistory (batches s1 bid) = history ++ [buyer]) /\
  (payments eff =
     (Transaction.from txn, Transaction.price txn) ::
     (if value >? Transaction.price txn
      then [(buyer, value - Transaction.price txn)] else []) /\
   forall seen, seen ∈ seen_by_recipients eff ->
     Transaction.completed (transactions seen id) = true /\
     BatchTracking.currentOwner (batches seen bid) = buyer /\
     BatchTracking.ownershipHistory (batches seen bid) = history ++ [buyer] /\
     ReentrancyGuard_entered seen = true) /\
  (forall later ctx' value',
     let s2 := run s1 later in
     call ctx' (CompleteTransaction id value') s2 =
       Reverted (if bool_decide (msg_sender ctx' = buyer)
                 then Err.AlreadyCompleted else Err.NotBuyer) /\
     apply s2 (ctx', CompleteTransaction id value') = s2) /\
  (forall seen ctx' value', seen ∈ seen_by_recipients eff ->
     call ctx' (CompleteTransaction id value') seen = Reverted Err.ReentrantCall /\
     (msg_sender ctx' = buyer ->
      completeTransaction_body ctx' value' id seen [] =
        Fail Err.AlreadyCompleted seen [])).
Proof.
  intros Hr Hs Hc txn bid buyer history. subst txn bid buyer history.
  pose proof (reachable_Inv _ Hr) as HI.
  assert (Hseen : forall seen, seen ∈ seen_by_recipients eff ->
            Transaction.completed (transactions seen id) = true /\
            Transaction.to (transactions seen id) = Transaction.to (transactions s id) /\
            BatchTracking.currentOwner
              (batches seen (Transaction.batchId (transactions s id))) =
              Transaction.to (transactions s id) /\
            BatchTracking.ownershipHistory
              (batches seen (Transaction.batchId (transactions s id))) =
              BatchTracking.ownershipHistory
                (batches s (Transaction.batchId (transactions s id))) ++
              [Transaction.to (transactions s id)] /\
            ReentrancyGuard_entered seen = true).
  { revert Hc. run_checks; intros H; inversion H; subst; clear H; cbn;
      intros seen Hin; rewrite ?elem_of_cons, elem_of_nil in Hin;
      destruct Hin as [->|[->|[]]] || destruct Hin as [->|[]];
      cbn; fn_same; cbn; fn_same; repeat split. }
  assert (Hfacts : msg_sender ctx = Transaction.to (transactions s id) /\
            Transaction.completed (transactions s id) = false /\
            Settled id (Transaction.to (transactions s id)) s1 /\
            BatchTracking.currentOwner
              (batches s1 (Transaction.batchId (transactions s id))) =
              Transaction.to (transactions s id) /\
            BatchTracking.ownershipHistory
              (batches s1 (Transaction.batchId (transactions s id))) =
              BatchTracking.ownershipHistory
                (batches s (Transaction.batchId (transactions s id))) ++
              [Transaction.to (transactions s id)] /\
            payments eff =
              (Transaction.from (transactions s id),
               Transaction.price (transactions s id)) ::
              (if value >? Transaction.price (transactions s id)
               then [(Transaction.to (transactions s id),
                      value - Transaction.price (transactions s id))] else [])).
  { assert (Hid : 0 < id < nextTransactionId s).
    { destruct (decide (0 < id < nextTransactionId s)) as [|Hn]; [assumption|].
      exfalso. revert Hc.
      run_checks; intros H; try discriminate H; bools;
        rewrite (inv_transaction_fresh _ HI _ Hn) in *; cbn in *; congruence. }
    revert Hc. run_checks; intros H; inversion H; subst; clear H;
      cbn in *; fn_same; cbn in *; fn_same; bools; try lia;
      (split; [assumption|]); (split; [assumption|]);
      (split; [constructor; cbn; fn_same; auto|]); repeat split;
      try congruence; repeat f_equal; assumption. }
  destruct Hfacts as (Hb & Hnc & Hset & Ho & Hh & Hpay).
  split; [|split; [|split]].
  - repeat split; try assumption. apply Hset.
  - split; [assumption|]. intros seen Hin.
    destruct (Hseen seen Hin) as (? & ? & ? & ? & ?). by repeat split.
  - intros later ctx' value' s2.
    pose proof (Settled_rejects id _ s2 ctx' value' (Settled_run _ _ _ later Hset)) as Hrej.
    split; [assumption|]. unfold apply. cbn [fst snd]. by rewrite Hrej.
  - intros seen ctx' value' Hin.
    destruct (Hseen seen Hin) as (Hcs & Hts & _ & _ & Hgs). split.
    + unfold_fns. by rewrite Hgs.
    + intros Hb'. unfold_fns. cbn. rewrite Hts, <- Hb', Z.eqb_refl. cbn.
      by rewrite Hcs.
Qed.

Lemma completeTransaction_settles_once_witness :
  call (Demo.by_ Demo.distributor) (CompleteTransaction 1 150) Demo.settled
    = Reverted Err.AlreadyCompleted /\
  call (Demo.by_ Demo.outsider) (CompleteTransaction 1 150) Demo.settled
    = Reverted Err.NotBuyer.
Proof.
  assert (Hr : reachable Demo.offered).
  { apply reachable_apply; [|discriminate].
    exists Demo.admin, Demo.setup. split; [discriminate|]. split; [|reflexivity].
    repeat constructor; discriminate. }
  assert (Hs : msg_sender (Demo.by_ Demo.distributor) <> address0) by discriminate.
  assert (Hc : call (Demo.by_ Demo.distributor) (CompleteTransaction 1 150) Demo.offered
               = Success RVoid Demo.settled
                   (outcome_effects
                      (call Demo.settle.1 Demo.settle.2 Demo.offered))).
  { vm_compute. reflexivity. }
  pose proof (completeTransaction_settles_once Demo.offered (Demo.by_ Demo.distributor)
                1 150 Demo.settled _ Hr Hs Hc) as (_ & _ & Hlater & _).
  assert (Hto : Transaction.to (transactions Demo.offered 1) = Demo.distributor)
    by (vm_compute; reflexivity).
  rewrite Hto in Hlater.
  split.
  - exact (proj1 (Hlater [] (Demo.by_ Demo.distributor) 150)).
  - exact (proj1 (Hlater [] (Demo.by_ Demo.outsider) 150)).
Defined.

(** The buyer (account 2) settles transaction 1 with 150 for a price of 100
    and is sent a refund.  A call of [completeTransaction] on that same
    transaction made by the buyer while receiving the refund finds the
    completed flag set, yet is rejected by the reentrancy guard, not with
    "Already completed". *)
Lemma reentrant_completion_stopped_by_guard :
  call Demo.settle.1 Demo.settle.2 Demo.offered =
    Success RVoid Demo.settled (outcome_effects (call Demo.settle.1 Demo.settle.2 Demo.offered)) /\
  payments (outcome_effects (call Demo.settle.1 Demo.settle.2 Demo.offered)) =
    [(Demo.farmer, 100); (Demo.distributor, 50)] /\
  Demo.refund_view ∈
    seen_by_recipients (outcome_effects (call Demo.settle.1 Demo.settle.2 Demo.offered)) /\
  Transaction.completed (transactions Demo.refund_view 1) = true /\
  call (Demo.by_ Demo.distributor) (CompleteTransaction 1 150) Demo.refund_view =
    Reverted Err.ReentrantCall /\
  call (Demo.by_ Demo.distributor) (CompleteTransaction 1 150) Demo.refund_view <>
    Reverted Err.AlreadyCompleted.
Proof.
  split; [vm_compute; reflexivity|].
  split; [vm_compute; reflexivity|].
  split.
  { unfold Demo.refund_view.
    set (l := seen_by_recipients _).
    assert (Hl : exists a b, l = [a; b]).
    { subst l. unfold_fns. cbn. eauto. }
    destruct Hl as (a & b & ->). cbn. rewrite !elem_of_cons. auto. }
  split; [vm_compute; reflexivity|].
  split; [vm_compute; reflexivity|].
  intros H. vm_compute in H. discriminate H.
Qed.

(** ** Links between the entities *)

(** Reads of updated mappings in the hypotheses. *)
Ltac fn_hyps :=
  repeat match goal with
  | E : ?k <> ?i, H : context [<[?k := ?v]> ?f ?i] |- _ =>
      rewrite (fn_lookup_insert_ne f k i v E) in H
  | E : ?k <> ?i, H : context [alter ?g ?k ?f ?i] |- _ =>
      rewrite (fn_lookup_alter_ne g f k i E) in H
  end.

Lemma Linked_deploy deployer : Linked (deploy deployer).
Proof. constructor; cbn; intros; try reflexivity; lia. Qed.

(** A successful [completeTransaction] by a real sender names a created
    transaction. *)
Lemma completed_is_assigned s ctx id :
  Inv s -> msg_sender ctx <> address0 ->
  msg_sender ctx = Transaction.to (transactions s id) ->
  0 < id < nextTransactionId s.
Proof.
  intros HI Hs He. destruct (decide (0 < id < nextTransactionId s)) as [|Hn]; [assumption|].
  rewrite (inv_transaction_fresh _ HI _ Hn) in He. cbn in He. congruence.
Qed.

Lemma Linked_apply s tx : valid_tx tx -> Inv s -> Linked s -> Linked (apply s tx).
Proof.
  intros Hv HI [Hbf Hlf Hbi Htb Hcr Hci].
  pose proof (inv_next_batch _ HI) as Hb.
  destruct tx as [ctx c].
  unfold valid_tx in Hv. unfold apply. cbn [fst snd] in *.
  destruct c; run_checks; try (constructor; assumption).
  all: try match goal with
    | H : (msg_sender ?x =? Transaction.to (transactions ?st ?id)) = true |- _ =>
        let Ha := fresh "Ha" in
        assert (Ha : 0 < id < nextTransactionId st)
          by (apply Z.eqb_eq in H; by apply (completed_is_assigned st x));
        apply Htb in Ha
    end.
  all: constructor; cbn; try assumption.
  all: try (intros i Hi; pose proof (Hbf i); pose proof (Hlf i); pose proof (Hbi i);
            pose proof (Htb i); fn_cases; cbn in *; bools; auto with lia; fail).
  all: try (intros c Hc; pose proof (Hcr c); fn_cases; fn_hyps; cbn in *; bools;
            auto with lia; fail).
  all: intros c1 c2 Hc1 Hc2; pose proof (Hci c1 c2); pose proof (Hcr c1);
    pose proof (Hcr c2); bools;
    destruct (decide (_qrCode = c1)) as [E1|E1];
    destruct (decide (_qrCode = c2)) as [E2|E2]; try congruence;
    subst; fn_same; fn_hyps; auto with lia.
Qed.

Lemma Linked_run txs : forall s,
  Forall valid_tx txs -> Inv s -> Linked s -> Linked (run s txs).
Proof.
  induction txs as [|tx txs IH]; intros s Hv HI HL; [assumption|].
  inversion Hv; subst. rewrite run_cons.
  apply IH; [assumption | by apply Inv_apply | by apply Linked_apply].
Qed.

Lemma reachable_Linked s : reachable s -> Linked s.
Proof.
  intros (deployer & txs & _ & Hv & ->).
  apply Linked_run; [assumption | apply Inv_deploy | apply Linked_deploy].
Qed.

Lemma valid_batch_check b s :
  0 < b < nextBatchId s -> (b >? 0) && (b <? nextBatchId s) = true.
Proof.
  intros Hb. apply andb_true_iff. split; [rewrite Z.gtb_ltb|]; apply Z.ltb_lt; lia.
Qed.

Lemma invalid_batch_check b s :
  ~ (0 < b < nextBatchId s) -> (b >? 0) && (b <? nextBatchId s) = false.
Proof.
  intros Hb. apply andb_false_iff.
  destruct (decide (0 < b)); [right; apply Z.ltb_ge|left; rewrite Z.gtb_ltb; apply Z.ltb_ge]; lia.
Qed.

Lemma gtb_true x y : y < x -> (x >? y) = true.
Proof. intros. rewrite Z.gtb_ltb. by apply Z.ltb_lt. Qed.

(** A relation kept by every transaction, reflexive and transitive, holds
    between the start and the end of any run. *)
Lemma run_related {A} (R : A -> A -> Prop) (f : Storage -> A) :
  (forall a, R a a) -> (forall a b c, R a b -> R b c -> R a c) ->
  (forall s tx, R (f s) (f (apply s tx))) ->
  forall txs s, R (f s) (f (run s txs)).
Proof.
  intros Hrefl Htrans Hstep txs.
  induction txs as [|tx txs IH]; intros s; [apply Hrefl|].
  rewrite run_cons. eapply Htrans; [apply Hstep | apply IH].
Qed.

Lemma nextProductId_run txs s : nextProductId s <= nextProductId (run s txs).
Proof.
  apply (run_related Z.le nextProductId); [lia | lia |].
  clear. intros s [ctx c]. unfold apply. cbn [fst snd]. destruct c; run_checks; lia.
Qed.

Lemma nextTransactionId_run txs s :
  nextTransactionId s <= nextTransactionId (run s txs).
Proof.
  apply (run_related Z.le nextTransactionId); [lia | lia |].
  clear. intros s [ctx c]. unfold apply. cbn [fst snd]. destruct c; run_checks; lia.
Qed.

(** ** Current owner and histories *)

Lemma Current_deploy deployer : Current (deploy deployer).
Proof. constructor; cbn; intros; lia. Qed.

Lemma Current_apply s tx : Current s -> Current (apply s tx).
Proof.
  intros [Hn Hc]. destruct tx as [ctx c]. unfold apply. cbn [fst snd].
  destruct c; run_checks; try (constructor; assumption).
  all: constructor; cbn; try lia; intros i Hi; pose proof (Hc i);
    fn_cases; cbn in *; rewrite ?last_last; auto with lia.
Qed.

(** X1. After any run from deployment, the current owner, location and
    timestamp of every created batch are the last entries of its owner,
    location and timestamp histories. *)
Theorem current_values_end_the_histories deployer txs i :
  let s := run (deploy deployer) txs in
  0 < i < nextBatchId s ->
  List.last (BatchTracking.ownershipHistory (batches s i)) address0 =
    BatchTracking.currentOwner (batches s i) /\
  List.last (BatchTracking.locationHistory (batches s i)) EmptyString =
    BatchTracking.location (batches s i) /\
  List.last (BatchTracking.stageTimestamps (batches s i)) 0 =
    BatchTracking.timestamp (batches s i).
Proof.
  intros s. apply current_owner. subst s.
  apply run_preserves; [intros; by apply Current_apply | apply Current_deploy].
Qed.

Lemma current_values_end_the_histories_witness :
  List.last (BatchTracking.ownershipHistory (batches Demo.ledger 1)) address0 =
    BatchTracking.currentOwner (batches Demo.ledger 1).
Proof.
  apply (current_values_end_the_histories Demo.admin Demo.setup 1).
  vm_compute. split; reflexivity.
Defined.

Lemma append_only_apply s tx i :
  BatchTracking.ownershipHistory (batches s i) `prefix_of`
    BatchTracking.ownershipHistory (batches (apply s tx) i) /\
  BatchTracking.locationHistory (batches s i) `prefix_of`
    BatchTracking.locationHistory (batches (apply s tx) i) /\
  BatchTracking.stageTimestamps (batches s i) `prefix_of`
    BatchTracking.stageTimestamps (batches (apply s tx) i) /\
  batchEnvironmentData s i `prefix_of` batchEnvironmentData (apply s tx) i.
Proof.
  destruct tx as [ctx c]. unfold apply. cbn [fst snd].
  destruct c; run_checks; try (repeat split; reflexivity);
    repeat split; fn_cases; cbn; try reflexivity; by apply prefix_app_r.
Qed.

Lemma log_prefix_run txs s i :
  batchEnvironmentData s i `prefix_of` batchEnvironmentData (run s txs) i.
Proof.
  apply (run_related (fun a b : list EnvironmentRecord.t => a `prefix_of` b)
           (fun s => batchEnvironmentData s i)).
  - reflexivity.
  - intros a b c Hab Hbc. by etrans.
  - intros s' tx. apply append_only_apply.
Qed.

(** X2. The three histories of a batch and its provenance log are
    append-only: whatever transactions run, what they held before is a prefix
    of what they hold after. *)
Theorem histories_are_append_only s txs i :
  BatchTracking.ownershipHistory (batches s i) `prefix_of`
    BatchTracking.ownershipHistory (batches (run s txs) i) /\
  BatchTracking.locationHistory (batches s i) `prefix_of`
    BatchTracking.locationHistory (batches (run s txs) i) /\
  BatchTracking.stageTimestamps (batches s i) `prefix_of`
    BatchTracking.stageTimestamps (batches (run s txs) i) /\
  batchEnvironmentData s i `prefix_of` batchEnvironmentData (run s txs) i.
Proof.
  revert s. induction txs as [|tx txs IH]; intros s; [repeat split; reflexivity|].
  rewrite run_cons. destruct (append_only_apply s tx i) as (H1 & H2 & H3 & H4).
  destruct (IH (apply s tx)) as (H1' & H2' & H3' & H4').
  repeat split; etrans; eassumption.
Qed.

(** ** The product catalogue *)

(** X3. Called by an active farmer with a non-empty name and a positive
    quantity (and the id counter not at its maximum), [createProduct]
    succeeds: it hands back the next product id, advances the counter by one,
    emits [ProductCreated], and [getProductInfo] of the new id answers the
    given fields with the caller as farmer and quality Excellent.  No other
    product slot changes. *)
Theorem createProduct_stores_the_product s ctx name variety quantity harvestDate
    organic certifications :
  Participant.isActive (participants s (msg_sender ctx)) = true ->
  Participant.role (participants s (msg_sender ctx)) = Farmer ->
  0 < bytes_length name ->
  0 < quantity ->
  nextProductId s + 1 <= MAX_UINT256 ->
  let id := nextProductId s in
  exists s1,
    call ctx (CreateProduct name variety quantity harvestDate organic certifications) s
      = Success (RUint id) s1 [Emit (ProductCreated id name (msg_sender ctx))] /\
    nextProductId s1 = id + 1 /\
    view (getProductInfo id) s1 =
      Returns (name, variety, quantity, msg_sender ctx, Excellent, organic,
               certifications) /\
    (forall i, i <> id -> products s1 i = products s i).
Proof.
  intros Ha Hr Hn Hq Hmax id. subst id. eexists. split.
  { unfold_fns. rewrite Ha, Hr, (bool_decide_eq_true_2 _ eq_refl).
    rewrite (gtb_true _ _ Hn), (gtb_true _ _ Hq). cbn.
    apply Z.leb_le in Hmax. rewrite Hmax. cbn. reflexivity. }
  cbn. split; [reflexivity|]. split.
  - unfold_fns. cbn. by fn_same.
  - intros i Hi. by rewrite fn_lookup_insert_ne.
Qed.

Lemma createProduct_stores_the_product_witness :
  exists s1,
    call (Demo.by_ Demo.farmer)
      (CreateProduct "Carrots" "Orange" 100 "2024-01-15" false []) Demo.ledger
      = Success (RUint 2) s1 [Emit (ProductCreated 2 "Carrots" Demo.farmer)] /\
    view (getProductInfo 2) s1 =
      Returns ("Carrots", "Orange", 100, Demo.farmer, Excellent, false, []).
Proof.
  destruct (createProduct_stores_the_product Demo.ledger (Demo.by_ Demo.farmer)
              "Carrots" "Orange" 100 "2024-01-15" false [])
    as (s1 & Hc & _ & Hv & _); try (vm_compute; reflexivity).
  { vm_compute. discriminate. }
  exists s1. split; [exact Hc | exact Hv].
Defined.

(** X4. [createProduct] checks, in this order: the caller is an active
    participant, the caller's role is Farmer, the name is not empty, the
    quantity is positive.  The first check that fails decides the revert
    reason. *)
Theorem createProduct_rejections s ctx name variety quantity harvestDate organic
    certifications :
  let c := CreateProduct name variety quantity harvestDate organic certifications in
  let p := participants s (msg_sender ctx) in
  (Participant.isActive p = false -> call ctx c s = Reverted Err.NotRegistered) /\
  (Participant.isActive p = true -> Participant.role p <> Farmer ->
     call ctx c s = Reverted Err.UnauthorizedRole) /\
  (Participant.isActive p = true -> Participant.role p = Farmer ->
   bytes_length name = 0 ->
     call ctx c s = Reverted (Revert "Product name cannot be empty")) /\
  (Participant.isActive p = true -> Participant.role p = Farmer ->
   0 < bytes_length name -> quantity <= 0 ->
     call ctx c s = Reverted (Revert "Quantity must be greater than 0")).
Proof.
  intros c p. subst c p. repeat split.
  - intros Ha. unfold_fns. by rewrite Ha.
  - intros Ha Hr. unfold_fns. rewrite Ha. cbn.
    by rewrite (bool_decide_eq_false_2 _ Hr).
  - intros Ha Hr Hn. unfold_fns.
    rewrite Ha, Hr, (bool_decide_eq_true_2 _ eq_refl), Hn. reflexivity.
  - intros Ha Hr Hn Hq. unfold_fns.
    rewrite Ha, Hr, (bool_decide_eq_true_2 _ eq_refl). cbn.
    rewrite (gtb_true _ _ Hn). cbn.
    assert (Hq' : (quantity >? 0) = false) by (rewrite Z.gtb_ltb; apply Z.ltb_ge; lia).
    by rewrite Hq'.
Qed.

Lemma createProduct_rejections_witness :
  call (Demo.by_ Demo.distributor)
    (CreateProduct "Corn" "Sweet" 200 "2024-01-15" false []) Demo.ledger
    = Reverted Err.UnauthorizedRole.
Proof.
  refine (proj1 (proj2 (createProduct_rejections Demo.ledger (Demo.by_ Demo.distributor)
                          "Corn" "Sweet" 200 "2024-01-15" false [])) _ _).
  - vm_compute. reflexivity.
  - vm_compute. discriminate.
Defined.

Lemma product_facts_apply s tx i :
  0 < i < nextProductId s ->
  product_facts (products (apply s tx) i) = product_facts (products s i).
Proof.
  intros Hi. destruct tx as [ctx c]. unfold apply. cbn [fst snd].
  destruct c; run_checks; try reflexivity; fn_cases; try reflexivity; lia.
Qed.

(** X5. Once a product is created, its id, name, variety, quantity, harvest
    date, farmer, organic flag and certifications never change, whatever
    transactions run; only its quality can. *)
Theorem product_facts_are_immutable txs : forall s i,
  0 < i < nextProductId s ->
  product_facts (products (run s txs) i) = product_facts (products s i).
Proof.
  induction txs as [|tx txs IH]; intros s i Hi; [reflexivity|].
  rewrite run_cons, IH.
  - by apply product_facts_apply.
  - pose proof (nextProductId_run [tx] s) as Hn. rewrite run_cons in Hn. cbn in Hn. lia.
Qed.

Lemma product_facts_are_immutable_witness :
  product_facts
    (products
       (run Demo.ledger
          [(Demo.by_ Demo.farmer, UpdateQuality 1 Fair "Temperature exposure")]) 1)
  = product_facts (products Demo.ledger 1).
Proof.
  apply (product_facts_are_immutable
           [(Demo.by_ Demo.farmer, UpdateQuality 1 Fair "Temperature exposure")]
           Demo.ledger 1).
  vm_compute. split; reflexivity.
Defined.

(** X6. The quality of a created product changes only through a successful
    [updateQuality] on a batch of that product, and then to the quality that
    call names. *)
Theorem quality_changes_only_by_updateQuality s tx i :
  0 < i < nextProductId s ->
  Product.currentQuality (products (apply s tx) i) <>
    Product.currentQuality (products s i) ->
  exists b q reason,
    tx.2 = UpdateQuality b q reason /\
    BatchTracking.productId (batches s b) = i /\
    Product.currentQuality (products (apply s tx) i) = q.
Proof.
  intros Hi. destruct tx as [ctx c]. unfold apply. cbn [fst snd].
  destruct c; run_checks; try congruence;
    try (fn_cases; [lia | congruence]).
  all: intros Hne; eexists _, _, _; split; [reflexivity|];
    destruct (decide (BatchTracking.productId (batches s _batchId) = i)) as [E|E];
    [ rewrite E in *; fn_same; cbn; split; reflexivity
    | fn_hyps; congruence ].
Qed.

Lemma quality_changes_only_by_updateQuality_witness :
  exists b q reason,
    (Demo.by_ Demo.farmer, UpdateQuality 1 Fair "Temperature exposure").2
      = UpdateQuality b q reason /\
    BatchTracking.productId (batches Demo.ledger b) = 1 /\
    Product.currentQuality
      (products
         (apply Demo.ledger
            (Demo.by_ Demo.farmer, UpdateQuality 1 Fair "Temperature exposure")) 1) = q.
Proof.
  apply (quality_changes_only_by_updateQuality Demo.ledger
           (Demo.by_ Demo.farmer, UpdateQuality 1 Fair "Temperature exposure") 1).
  - vm_compute. split; reflexivity.
  - vm_compute. discriminate.
Defined.

(** ** Batches *)

(** X7. In a reachable storage, [createBatch] called by an active farmer
    for a product of their own, with an unused non-empty code and a non-empty
    location, succeeds: it hands back the next batch id, the code resolves to
    it, the batch starts at stage Harvested with the caller as owner, empty
    notes and an empty provenance log, and its histories hold exactly the
    creation entry.  No other batch slot changes. *)
Theorem createBatch_registers_the_batch s ctx productId code loc :
  reachable s ->
  Participant.isActive (participants s (msg_sender ctx)) = true ->
  Participant.role (participants s (msg_sender ctx)) = Farmer ->
  Product.farmer (products s productId) = msg_sender ctx ->
  qrCodeToBatch s code = 0 ->
  0 < bytes_length code ->
  0 < bytes_length loc ->
  nextBatchId s + 1 <= MAX_UINT256 ->
  let id := nextBatchId s in
  exists s1,
    call ctx (CreateBatch productId code loc) s
      = Success (RUint id) s1 [Emit (BatchCreated id productId code)] /\
    view (getBatchByQR code) s1 = Returns id /\
    view (getBatchDetails id) s1 =
      Returns (id, productId, Harvested, msg_sender ctx, loc, EmptyString, 0) /\
    view (getBatchHistory id) s1 =
      Returns ([msg_sender ctx], [loc], [block_timestamp ctx]) /\
    (forall i, i <> id -> batches s1 i = batches s i).
Proof.
  intros Hr Ha Hrole Hf Hq Hc Hl Hmax id. subst id.
  pose proof (reachable_Linked _ Hr) as HL.
  pose proof (inv_next_batch _ (reachable_Inv _ Hr)) as Hn.
  assert (Hfresh : ~ (0 < nextBatchId s < nextBatchId s)) by lia.
  eexists. split.
  { unfold_fns. rewrite Ha, Hrole, (bool_decide_eq_true_2 _ eq_refl). cbn.
    rewrite Hf, Z.eqb_refl. cbn. rewrite Hq. cbn.
    rewrite (gtb_true _ _ Hc), (gtb_true _ _ Hl). cbn.
    apply Z.leb_le in Hmax. rewrite Hmax. cbn. reflexivity. }
  assert (Hv : (nextBatchId s >? 0) && (nextBatchId s <? nextBatchId s + 1) = true).
  { apply andb_true_iff. split; [apply gtb_true|apply Z.ltb_lt]; lia. }
  split; [unfold_fns; cbn; by fn_same|]. split; [|split].
  - unfold_fns. cbn. rewrite Hv. cbn. fn_same.
    rewrite (linked_batch_fresh _ HL _ Hfresh), (linked_log_fresh _ HL _ Hfresh).
    reflexivity.
  - unfold_fns. cbn. rewrite Hv. cbn. fn_same.
    rewrite (linked_batch_fresh _ HL _ Hfresh). reflexivity.
  - intros i Hi. cbn. by rewrite fn_lookup_alter_ne.
Qed.

Lemma createBatch_registers_the_batch_witness :
  exists s1,
    call (Demo.by_ Demo.farmer) (CreateBatch 1 "QR_002" "Barn") Demo.ledger
      = Success (RUint 2) s1 [Emit (BatchCreated 2 1 "QR_002")] /\
    view (getBatchByQR "QR_002") s1 = Returns 2 /\
    view (getBatchDetails 2) s1 =
      Returns (2, 1, Harvested, Demo.farmer, "Barn", EmptyString, 0).
Proof.
  destruct (createBatch_registers_the_batch Demo.ledger (Demo.by_ Demo.farmer)
              1 "QR_002" "Barn")
    as (s1 & Hc & Hq & Hd & _).
  - exists Demo.admin, Demo.setup. split; [discriminate|]. split; [|reflexivity].
    repeat constructor; discriminate.
  - vm_compute. reflexivity.
  - vm_compute. reflexivity.
  - vm_compute. reflexivity.
  - vm_compute. reflexivity.
  - vm_compute. reflexivity.
  - vm_compute. reflexivity.
  - vm_compute. discriminate.
  - exists s1. repeat split; assumption.
Defined.

(** X8. [updateQuality], called by an active participant who owns the
    created batch or whose role is Supplier or Distributor, succeeds: the
    quality of the batch's product becomes the given one (for every batch of
    that product, since quality is stored per product), and the batch's notes
    gain the line " | Quality updated to <quality>: <reason>" exactly when
    the reason is not empty.  Nothing else in the batch changes. *)
Theorem updateQuality_sets_the_product_quality s ctx b q reason :
  Participant.isActive (participants s (msg_sender ctx)) = true ->
  0 < b < nextBatchId s ->
  BatchTracking.currentOwner (batches s b) = msg_sender ctx \/
  Participant.role (participants s (msg_sender ctx)) = Supplier \/
  Participant.role (participants s (msg_sender ctx)) = Distributor ->
  let notes' :=
    if bytes_length reason >? 0
    then BatchTracking.notes (batches s b) +:+ " | Quality updated to "
           +:+ getQualityString q +:+ ": " +:+ reason
    else BatchTracking.notes (batches s b) in
  exists s1,
    call ctx (UpdateQuality b q reason) s
      = Success RVoid s1 [Emit (QualityUpdated b q (msg_sender ctx))] /\
    Product.currentQuality (products s1 (BatchTracking.productId (batches s b))) = q /\
    batches s1 b = BatchTracking.set_notes notes' (batches s b).
Proof.
  intros Ha Hb Hauth notes'. subst notes'.
  assert (Hcheck : (BatchTracking.currentOwner (batches s b) =? msg_sender ctx)
             || bool_decide (Participant.role (participants s (msg_sender ctx)) = Supplier)
             || bool_decide (Participant.role (participants s (msg_sender ctx)) = Distributor)
             = true).
  { destruct Hauth as [H|[H|H]].
    - apply Z.eqb_eq in H. by rewrite H.
    - rewrite (bool_decide_eq_true_2 _ H). by rewrite orb_true_r.
    - rewrite (bool_decide_eq_true_2 _ H). by rewrite orb_true_r. }
  destruct (bytes_length reason >? 0) eqn:Hreason.
  - eexists. split.
    { unfold_fns. rewrite Ha. cbn. rewrite (valid_batch_check _ _ Hb). cbn.
      rewrite Hcheck. cbn. rewrite Hreason. cbn. reflexivity. }
    cbn. fn_same. split; reflexivity.
  - eexists. split.
    { unfold_fns. rewrite Ha. cbn. rewrite (valid_batch_check _ _ Hb). cbn.
      rewrite Hcheck. cbn. rewrite Hreason. cbn. reflexivity. }
    cbn. fn_same. split; [reflexivity|]. by destruct (batches s b).
Qed.

Lemma updateQuality_sets_the_product_quality_witness :
  exists s1,
    call (Demo.by_ Demo.distributor) (UpdateQuality 1 Good "Processing damage")
      Demo.ledger
      = Success RVoid s1 [Emit (QualityUpdated 1 Good Demo.distributor)] /\
    Product.currentQuality
      (products s1 (BatchTracking.productId (batches Demo.ledger 1))) = Good.
Proof.
  destruct (updateQuality_sets_the_product_quality Demo.ledger
              (Demo.by_ Demo.distributor) 1 Good "Processing damage")
    as (s1 & Hc & Hq & _).
  - vm_compute. reflexivity.
  - vm_compute. split; reflexivity.
  - right. right. vm_compute. reflexivity.
  - exists s1. split; assumption.
Defined.

(** X9. [updateQuality] on a created batch is rejected with "Not
    authorized to update quality" for an active caller who is neither the
    batch's owner nor a Supplier nor a Distributor: a farmer or retailer
    cannot regrade a batch they do not own. *)
Theorem updateQuality_needs_owner_or_handler s ctx b q reason :
  Participant.isActive (participants s (msg_sender ctx)) = true ->
  0 < b < nextBatchId s ->
  BatchTracking.currentOwner (batches s b) <> msg_sender ctx ->
  Participant.role (participants s (msg_sender ctx)) = Farmer \/
  Participant.role (participants s (msg_sender ctx)) = Retailer ->
  call ctx (UpdateQuality b q reason) s
    = Reverted (Revert "Not authorized to update quality").
Proof.
  intros Ha Hb Ho Hrole. unfold_fns. rewrite Ha. cbn.
  rewrite (valid_batch_check _ _ Hb). cbn.
  apply Z.eqb_neq in Ho. rewrite Ho.
  destruct Hrole as [-> | ->]; reflexivity.
Qed.

Lemma updateQuality_needs_owner_or_handler_witness :
  call (Demo.by_ 4) (UpdateQuality 1 Poor "Looks bad")
    (apply Demo.ledger (Demo.by_ 4, RegisterParticipant "Fresh Market" "Arizona" Retailer))
    = Reverted (Revert "Not authorized to update quality").
Proof.
  apply (updateQuality_needs_owner_or_handler
           (apply Demo.ledger
              (Demo.by_ 4, RegisterParticipant "Fresh Market" "Arizona" Retailer))
           (Demo.by_ 4) 1 Poor "Looks bad").
  - vm_compute. reflexivity.
  - vm_compute. split; reflexivity.
  - vm_compute. discriminate.
  - right. vm_compute. reflexivity.
Defined.

(** X10. [addBatchNote], called by any active participant (owner or not)
    for a created batch with a non-empty note, succeeds and appends " | "
    followed by the note to the batch's notes, changing nothing else in the
    batch; with an empty note it is rejected with "Note cannot be empty". *)
Theorem addBatchNote_appends_the_note s ctx b note :
  Participant.isActive (participants s (msg_sender ctx)) = true ->
  0 < b < nextBatchId s ->
  (0 < bytes_length note ->
   exists s1,
     call ctx (AddBatchNote b note) s
       = Success RVoid s1 [Emit (BatchNoteAdded b note (msg_sender ctx))] /\
     batches s1 b =
       BatchTracking.set_notes (BatchTracking.notes (batches s b) +:+ " | " +:+ note)
         (batches s b) /\
     view (getBatchDetails b) s1 =
       Returns (BatchTracking.batchId (batches s b), BatchTracking.productId (batches s b),
                BatchTracking.currentStage (batches s b),
                BatchTracking.currentOwner (batches s b),
                BatchTracking.location (batches s b),
                BatchTracking.notes (batches s b) +:+ " | " +:+ note,
                Z.of_nat (length (batchEnvironmentData s b)))) /\
  (bytes_length note = 0 ->
   call ctx (AddBatchNote b note) s = Reverted (Revert "Note cannot be empty")).
Proof.
  intros Ha Hb. split.
  - intros Hn. eexists. split.
    { unfold_fns. rewrite Ha. cbn. rewrite (valid_batch_check _ _ Hb). cbn.
      rewrite (gtb_true _ _ Hn). cbn. reflexivity. }
    cbn. fn_same. split; [reflexivity|].
    unfold_fns. cbn. rewrite (valid_batch_check _ _ Hb). cbn. by fn_same.
  - intros Hn. unfold_fns. rewrite Ha. cbn. rewrite (valid_batch_check _ _ Hb). cbn.
    by rewrite Hn.
Qed.

Lemma addBatchNote_appends_the_note_witness :
  exists s1,
    call (Demo.by_ Demo.distributor) (AddBatchNote 1 "Harvested early morning")
      Demo.ledger
      = Success RVoid s1
          [Emit (BatchNoteAdded 1 "Harvested early morning" Demo.distributor)] /\
    BatchTracking.notes (batches s1 1) = " | Harvested early morning".
Proof.
  destruct (addBatchNote_appends_the_note Demo.ledger (Demo.by_ Demo.distributor) 1
              "Harvested early morning") as [Hok _].
  - vm_compute. reflexivity.
  - vm_compute. split; reflexivity.
  - destruct Hok as (s1 & Hc & Hb & _); [vm_compute; reflexivity|].
    exists s1. split; [exact Hc|]. rewrite Hb. vm_compute. reflexivity.
Defined.

Lemma append_assoc (a b c : string) : (a +:+ b) +:+ c = a +:+ (b +:+ c).
Proof.
  induction a as [|x a IH]; [reflexivity|].
  change (String x ((a +:+ b) +:+ c) = String x (a +:+ (b +:+ c))). by f_equal.
Qed.

Lemma append_empty_r (a : string) : a +:+ EmptyString = a.
Proof.
  induction a as [|x a IH]; [reflexivity|].
  change (String x (a +:+ EmptyString) = String x a). by f_equal.
Qed.

(** X11. The notes of a batch only grow: whatever transactions run, the
    notes afterwards are the notes before followed by some text. *)
Theorem notes_only_grow s txs i :
  exists added,
    BatchTracking.notes (batches (run s txs) i) =
      BatchTracking.notes (batches s i) +:+ added.
Proof.
  apply (run_related
           (fun a b : string => exists added, b = a +:+ added)
           (fun s => BatchTracking.notes (batches s i))).
  - intros a. exists EmptyString. by rewrite append_empty_r.
  - intros a b c [x ->] [y ->]. exists (x +:+ y). by rewrite append_assoc.
  - clear. intros s [ctx c]. unfold apply. cbn [fst snd].
    destruct c; run_checks;
      try (exists EmptyString; by rewrite append_empty_r);
      fn_cases; cbn;
      try (exists EmptyString; by rewrite append_empty_r);
      eexists; reflexivity.
Qed.

(** X12. A batch id that was never handed out (0, or not below
    [nextBatchId]) is refused everywhere: the four batch views revert with
    "Invalid batch ID", and every state-changing function that names a batch
    is rejected, with "Invalid batch ID" or, where the registration check
    comes first, "Not a registered participant". *)
Theorem unknown_batch_id_is_refused s b :
  ~ (0 < b < nextBatchId s) ->
  view (getBatchHistory b) s = Reverts Err.InvalidBatch /\
  view (getBatchDetails b) s = Reverts Err.InvalidBatch /\
  view (getEnvironmentDataCount b) s = Reverts Err.InvalidBatch /\
  (forall index, view (getEnvironmentData b index) s = Reverts Err.InvalidBatch) /\
  (forall ctx c, named_batch c = Some b ->
     call ctx c s = Reverted Err.InvalidBatch \/
     call ctx c s = Reverted Err.NotRegistered).
Proof.
  intros Hb. pose proof (invalid_batch_check _ _ Hb) as Hv.
  repeat split; try (intros; unfold_fns; by rewrite Hv).
  intros ctx c Hc. destruct c; cbn in Hc; try discriminate;
    inversion Hc; subst; unfold_fns;
    try (destruct (Participant.isActive _); cbn; [|by right]);
    rewrite Hv; by left.
Qed.

Lemma unknown_batch_id_is_refused_witness :
  view (getBatchDetails 999) Demo.ledger = Reverts Err.InvalidBatch /\
  view (getBatchDetails 0) Demo.ledger = Reverts Err.InvalidBatch.
Proof.
  split.
  - apply (unknown_batch_id_is_refused Demo.ledger 999).
    vm_compute. intros [_ H]. discriminate H.
  - apply (unknown_batch_id_is_refused Demo.ledger 0).
    vm_compute. intros [H _]. discriminate H.
Defined.

(** X13. Sold is final for [transferBatchOwnership]: once a created batch
    is at stage Sold it stays there whatever transactions run, and every
    [transferBatchOwnership] on it is rejected. *)
Theorem sold_batch_cannot_be_transferred s b :
  0 < b < nextBatchId s ->
  BatchTracking.currentStage (batches s b) = Sold ->
  forall later,
    BatchTracking.currentStage (batches (run s later) b) = Sold /\
    forall ctx newOwner newStage newLocation,
      exists f,
        call ctx (TransferBatchOwnership b newOwner newStage newLocation) (run s later)
          = Reverted f.
Proof.
  intros Hb Hs later.
  assert (Hsold : BatchTracking.currentStage (batches (run s later) b) = Sold).
  { pose proof (stage_run later s b Hb) as Hle. rewrite Hs in Hle.
    destruct (BatchTracking.currentStage (batches (run s later) b)); cbn in Hle;
      try lia; reflexivity. }
  split; [assumption|]. intros ctx newOwner newStage newLocation.
  run_checks; eauto. bools. rewrite Hsold in *.
  destruct newStage; cbn in *; try lia; congruence.
Qed.

Lemma sold_batch_cannot_be_transferred_witness :
  exists f,
    call (Demo.by_ Demo.distributor)
      (TransferBatchOwnership 1 Demo.farmer Sold "Farm")
      (run (apply Demo.ledger
              (Demo.by_ Demo.farmer, TransferBatchOwnership 1 Demo.distributor Sold "Shop"))
         [])
    = Reverted f.
Proof.
  apply (sold_batch_cannot_be_transferred
           (apply Demo.ledger
              (Demo.by_ Demo.farmer, TransferBatchOwnership 1 Demo.distributor Sold "Shop"))
           1).
  - vm_compute. split; reflexivity.
  - vm_compute. reflexivity.
Defined.

(** X14. The stage and the location of a created batch change only in a
    successful [transferBatchOwnership] on that batch sent by its current
    owner, and then to the stage and location that call names. *)
Theorem stage_and_location_change_only_by_owner_transfer s tx b :
  0 < b < nextBatchId s ->
  BatchTracking.currentStage (batches (apply s tx) b) <>
    BatchTracking.currentStage (batches s b) \/
  BatchTracking.location (batches (apply s tx) b) <>
    BatchTracking.location (batches s b) ->
  exists newOwner newStage newLocation,
    tx.2 = TransferBatchOwnership b newOwner newStage newLocation /\
    msg_sender tx.1 = BatchTracking.currentOwner (batches s b) /\
    BatchTracking.currentStage (batches (apply s tx) b) = newStage /\
    BatchTracking.location (batches (apply s tx) b) = newLocation.
Proof.
  intros Hb. destruct tx as [ctx c]. unfold apply. cbn [fst snd].
  destruct c; run_checks; try (intros [H|H]; congruence);
    try (intros [H|H]; revert H; fn_cases; cbn; (lia || congruence)).
  intros Hch.
  destruct (decide (_batchId = b)) as [->|Hne].
  - eexists _, _, _. split; [reflexivity|]. fn_same. cbn. bools.
    repeat split; congruence.
  - exfalso. revert Hch. rewrite !(fn_lookup_alter_ne _ _ _ _ Hne). intros [H|H]; congruence.
Qed.

Lemma stage_and_location_change_only_by_owner_transfer_witness :
  exists newOwner newStage newLocation,
    (Demo.by_ Demo.farmer,
     TransferBatchOwnership 1 Demo.distributor Processed "Processing Center").2
      = TransferBatchOwnership 1 newOwner newStage newLocation /\
    msg_sender (Demo.by_ Demo.farmer) = BatchTracking.currentOwner (batches Demo.ledger 1).
Proof.
  destruct (stage_and_location_change_only_by_owner_transfer Demo.ledger
              (Demo.by_ Demo.farmer,
               TransferBatchOwnership 1 Demo.distributor Processed "Processing Center") 1)
    as (o & st & l & H1 & H2 & _).
  - vm_compute. split; reflexivity.
  - left. vm_compute. discriminate.
  - exists o, st, l. split; assumption.
Defined.

(** X15. The owner of a created batch changes only in two ways: a
    successful [transferBatchOwnership] on that batch sent by its current
    owner, to the active participant the call names; or a successful
    [completeTransaction], sent by the buyer of a transaction on that batch,
    to that buyer. *)
Theorem owner_changes_only_by_transfer_or_settlement s tx b :
  0 < b < nextBatchId s ->
  BatchTracking.currentOwner (batches (apply s tx) b) <>
    BatchTracking.currentOwner (batches s b) ->
  (exists newOwner newStage newLocation,
     tx.2 = TransferBatchOwnership b newOwner newStage newLocation /\
     msg_sender tx.1 = BatchTracking.currentOwner (batches s b) /\
     Participant.isActive (participants s newOwner) = true /\
     BatchTracking.currentOwner (batches (apply s tx) b) = newOwner) \/
  (exists id value,
     tx.2 = CompleteTransaction id value /\
     Transaction.batchId (transactions s id) = b /\
     msg_sender tx.1 = Transaction.to (transactions s id) /\
     BatchTracking.currentOwner (batches (apply s tx) b) = msg_sender tx.1).
Proof.
  intros Hb. destruct tx as [ctx c]. unfold apply. cbn [fst snd].
  destruct c; run_checks; try congruence;
    try (fn_cases; cbn; (lia || congruence)).
  - intros Hch. left.
    destruct (decide (_batchId = b)) as [->|Hne].
    + eexists _, _, _. split; [reflexivity|]. fn_same. cbn. bools.
      repeat split; congruence.
    + exfalso. revert Hch. rewrite !(fn_lookup_alter_ne _ _ _ _ Hne). congruence.
  - intros Hch. right. fn_same. cbn in *.
    destruct (decide (Transaction.batchId (transactions s _transactionId) = b)) as [E|Hne].
    + eexists _, _. split; [reflexivity|]. rewrite E. fn_same. cbn. bools.
      repeat split; congruence.
    + exfalso. revert Hch. rewrite !(fn_lookup_alter_ne _ _ _ _ Hne). congruence.
  - intros Hch. right. fn_same. cbn in *.
    destruct (decide (Transaction.batchId (transactions s _transactionId) = b)) as [E|Hne].
    + eexists _, _. split; [reflexivity|]. rewrite E. fn_same. cbn. bools.
      repeat split; congruence.
    + exfalso. revert Hch. rewrite !(fn_lookup_alter_ne _ _ _ _ Hne). congruence.
Qed.

Lemma owner_changes_only_by_transfer_or_settlement_witness :
  (exists newOwner newStage newLocation,
     Demo.settle.2 = TransferBatchOwnership 1 newOwner newStage newLocation /\
     msg_sender Demo.settle.1 = BatchTracking.currentOwner (batches Demo.offered 1) /\
     Participant.isActive (participants Demo.offered newOwner) = true /\
     BatchTracking.currentOwner (batches (apply Demo.offered Demo.settle) 1) = newOwner) \/
  (exists id value,
     Demo.settle.2 = CompleteTransaction id value /\
     Transaction.batchId (transactions Demo.offered id) = 1 /\
     msg_sender Demo.settle.1 = Transaction.to (transactions Demo.offered id) /\
     BatchTracking.currentOwner (batches (apply Demo.offered Demo.settle) 1) =
       msg_sender Demo.settle.1).
Proof.
  apply (owner_changes_only_by_transfer_or_settlement Demo.offered Demo.settle 1).
  - vm_compute. split; reflexivity.
  - vm_compute. discriminate.
Defined.

(** ** Escrow transactions *)

(** X16. [createTransaction], called by the current owner of a created
    batch for an active buyer, with a positive price and a non-empty type,
    succeeds whether or not the caller is (still) an active participant: it
    hands back the next transaction id and stores a pending transaction with
    the caller as seller.  It emits no event and leaves batches and
    participants as they were. *)
Theorem createTransaction_opens_a_pending_transaction s ctx b buyer price type :
  0 < b < nextBatchId s ->
  BatchTracking.currentOwner (batches s b) = msg_sender ctx ->
  Participant.isActive (participants s buyer) = true ->
  0 < price ->
  0 < bytes_length type ->
  nextTransactionId s + 1 <= MAX_UINT256 ->
  let id := nextTransactionId s in
  exists s1,
    call ctx (CreateTransaction b buyer price type) s = Success (RUint id) s1 [] /\
    transactions s1 id =
      Transaction.mk id b (msg_sender ctx) buyer (block_timestamp ctx) price type false /\
    nextTransactionId s1 = id + 1 /\
    batches s1 = batches s /\
    participants s1 = participants s.
Proof.
  intros Hb Ho Ha Hp Ht Hmax id. subst id. eexists. split.
  { unfold_fns. rewrite (valid_batch_check _ _ Hb). cbn. rewrite Ho, Z.eqb_refl. cbn.
    rewrite Ha. cbn. rewrite (gtb_true _ _ Hp), (gtb_true _ _ Ht). cbn.
    apply Z.leb_le in Hmax. rewrite Hmax. cbn. reflexivity. }
  cbn. fn_same. repeat split.
Qed.

Lemma createTransaction_opens_a_pending_transaction_witness :
  exists s1,
    call Demo.offer.1 (CreateTransaction 1 Demo.distributor 100 "sale") Demo.ledger
      = Success (RUint 1) s1 [] /\
    transactions s1 1 =
      Transaction.mk 1 1 Demo.farmer Demo.distributor 1000 100 "sale" false.
Proof.
  destruct (createTransaction_opens_a_pending_transaction Demo.ledger Demo.offer.1
              1 Demo.distributor 100 "sale")
    as (s1 & Hc & Ht & _); try (vm_compute; reflexivity).
  { vm_compute. split; reflexivity. }
  { vm_compute. discriminate. }
  exists s1. split; assumption.
Defined.

Lemma transaction_terms_apply s tx id :
  0 < id < nextTransactionId s ->
  transaction_terms (transactions (apply s tx) id) = transaction_terms (transactions s id) /\
  (Transaction.completed (transactions s id) = true ->
   Transaction.completed (transactions (apply s tx) id) = true).
Proof.
  intros Hi. destruct tx as [ctx c]. unfold apply. cbn [fst snd].
  destruct c; run_checks; try (split; [reflexivity|tauto]);
    split; fn_cases; cbn; try reflexivity; try tauto; lia.
Qed.

(** X17. The terms of a created transaction (id, batch, seller, buyer,
    creation time, price, type) never change, whatever transactions run, and
    its completed flag, once set, is never cleared. *)
Theorem transaction_terms_are_immutable txs : forall s id,
  0 < id < nextTransactionId s ->
  transaction_terms (transactions (run s txs) id) = transaction_terms (transactions s id) /\
  (Transaction.completed (transactions s id) = true ->
   Transaction.completed (transactions (run s txs) id) = true).
Proof.
  induction txs as [|tx txs IH]; intros s id Hi; [split; [reflexivity|tauto]|].
  rewrite run_cons. destruct (transaction_terms_apply s tx id Hi) as [Ht Hc].
  assert (Hi' : 0 < id < nextTransactionId (apply s tx)).
  { pose proof (nextTransactionId_run [tx] s) as Hn. rewrite run_cons in Hn. cbn in Hn. lia. }
  destruct (IH _ _ Hi') as [Ht' Hc']. split; [congruence|auto].
Qed.

Lemma transaction_terms_are_immutable_witness :
  transaction_terms (transactions (run Demo.offered [Demo.settle]) 1) =
    transaction_terms (transactions Demo.offered 1).
Proof.
  apply (transaction_terms_are_immutable [Demo.settle] Demo.offered 1).
  vm_compute. split; reflexivity.
Defined.

(** What a [completeTransaction] that passes its checks and whose transfers
    are accepted does. *)
Lemma completeTransaction_ok s ctx id value :
  ReentrancyGuard_entered s = false ->
  msg_sender ctx = Transaction.to (transactions s id) ->
  Transaction.completed (transactions s id) = false ->
  Transaction.price (transactions s id) <= value ->
  payable_ok ctx (Transaction.from (transactions s id))
    (Transaction.price (transactions s id)) = true ->
  (if value >? Transaction.price (transactions s id)
   then payable_ok ctx (msg_sender ctx) (value - Transaction.price (transactions s id))
   else true) = true ->
  exists s1 eff,
    call ctx (CompleteTransaction id value) s = Success RVoid s1 eff /\
    BatchTracking.currentOwner (batches s1 (Transaction.batchId (transactions s id)))
      = msg_sender ctx /\
    BatchTracking.currentStage (batches s1 (Transaction.batchId (transactions s id)))
      = BatchTracking.currentStage
          (batches s (Transaction.batchId (transactions s id))) /\
    head (payments eff) =
      Some (Transaction.from (transactions s id), Transaction.price (transactions s id)).
Proof.
  intros Hg Hb Hc Hp Hp1 Hp2.
  assert (Hge : (value >=? Transaction.price (transactions s id)) = true)
    by (rewrite Z.geb_leb; apply Z.leb_le; lia).
  unfold_fns. rewrite Hg. cbn. rewrite <- Hb, Z.eqb_refl. cbn. rewrite Hc. cbn.
  rewrite Hge. cbn. fn_same. cbn. rewrite Hp1. cbn. fn_same. cbn.
  revert Hp2. destruct (value >? Transaction.price (transactions s id)); cbn.
  - intros ->. cbn. eexists _, _. split; [reflexivity|]. cbn. fn_same. cbn.
    repeat split; try reflexivity; by rewrite Hb.
  - intros _. eexists _, _. split; [reflexivity|]. cbn. fn_same. cbn.
    repeat split; try reflexivity; by rewrite Hb.
Qed.

(** X18. Outside a running [completeTransaction] (guard not entered), the
    call succeeds exactly when the caller is the stored buyer, the
    transaction is not completed, the ether sent covers the price, the seller
    accepts the price and, if there is an excess, the caller accepts the
    refund.  Who owns the batch at that moment plays no part.  When the
    checks pass but a transfer is refused, the call reverts as a whole. *)
Theorem completeTransaction_succeeds_exactly_when s ctx id value :
  ReentrancyGuard_entered s = false ->
  let txn := transactions s id in
  let paid :=
    payable_ok ctx (Transaction.from txn) (Transaction.price txn) &&
    (if value >? Transaction.price txn
     then payable_ok ctx (msg_sender ctx) (value - Transaction.price txn) else true) in
  ((exists s1 eff, call ctx (CompleteTransaction id value) s = Success RVoid s1 eff) <->
   msg_sender ctx = Transaction.to txn /\
   Transaction.completed txn = false /\
   Transaction.price txn <= value /\
   paid = true) /\
  (msg_sender ctx = Transaction.to txn ->
   Transaction.completed txn = false ->
   Transaction.price txn <= value ->
   paid = false ->
   call ctx (CompleteTransaction id value) s = Reverted TransferFailed).
Proof.
  intros Hg txn paid. subst txn paid. split; [split|].
  - intros (s1 & eff & Hc). revert Hc.
    run_checks; intros H; try discriminate H; bools; cbn in *; fn_same; cbn in *;
      repeat split; try assumption; try lia; try reflexivity.
    all: apply andb_true_iff; split; first [assumption | reflexivity].
  - intros (Hb & Hc & Hp & Hpaid). apply andb_true_iff in Hpaid as [Hp1 Hp2].
    destruct (completeTransaction_ok s ctx id value Hg Hb Hc Hp Hp1 Hp2)
      as (s1 & eff & Hcall & _). eauto.
  - intros Hb Hc Hp Hpaid.
    unfold_fns. rewrite Hg. cbn. rewrite <- Hb, Z.eqb_refl. cbn. rewrite Hc. cbn.
    assert (Hge : (value >=? Transaction.price (transactions s id)) = true)
      by (rewrite Z.geb_leb; apply Z.leb_le; lia).
    rewrite Hge. cbn. fn_same. cbn. revert Hpaid.
    destruct (payable_ok ctx (Transaction.from (transactions s id))
                (Transaction.price (transactions s id))); cbn; [|reflexivity].
    fn_same. cbn.
    destruct (value >? Transaction.price (transactions s id)); cbn; [|discriminate].
    by intros ->.
Qed.

Lemma completeTransaction_succeeds_exactly_when_witness :
  exists s1 eff,
    call Demo.settle.1 (CompleteTransaction 1 150) Demo.offered = Success RVoid s1 eff.
Proof.
  refine (proj2 (proj1 (completeTransaction_succeeds_exactly_when Demo.offered
                          Demo.settle.1 1 150 _)) _).
  - vm_compute. reflexivity.
  - repeat split; vm_compute; try reflexivity. discriminate.
Defined.

(** X19. An offer outlives the seller's ownership: if, after a transaction
    on batch [b] was opened, the owner hands the batch on with
    [transferBatchOwnership], the named buyer can still complete the
    transaction.  The batch then goes from its new owner to the buyer, at the
    stage the transfer set, and the price is sent to the seller stored in the
    transaction. *)
Theorem offer_survives_a_transfer s octx b newOwner newStage newLocation r s1 eff1
    ctx id value :
  ReentrancyGuard_entered s = false ->
  call octx (TransferBatchOwnership b newOwner newStage newLocation) s
    = Success r s1 eff1 ->
  let txn := transactions s id in
  Transaction.batchId txn = b ->
  msg_sender ctx = Transaction.to txn ->
  Transaction.completed txn = false ->
  Transaction.price txn <= value ->
  payable_ok ctx (Transaction.from txn) (Transaction.price txn) = true ->
  payable_ok ctx (msg_sender ctx) (value - Transaction.price txn) = true ->
  BatchTracking.currentOwner (batches s1 b) = newOwner /\
  exists s2 eff2,
    call ctx (CompleteTransaction id value) s1 = Success RVoid s2 eff2 /\
    BatchTracking.currentOwner (batches s2 b) = msg_sender ctx /\
    BatchTracking.currentStage (batches s2 b) = newStage /\
    head (payments eff2) = Some (Transaction.from txn, Transaction.price txn).
Proof.
  intros Hg Ht txn Hb Hbuyer Hc Hp Hp1 Hp2. subst txn.
  assert (Hs1 : transactions s1 = transactions s /\
                ReentrancyGuard_entered s1 = false /\
                BatchTracking.currentOwner (batches s1 b) = newOwner /\
                BatchTracking.currentStage (batches s1 b) = newStage).
  { revert Ht. run_checks; intros H; inversion H; subst; cbn; fn_same.
    repeat split; assumption. }
  destruct Hs1 as (Htx & Hg1 & Ho1 & Hst1). split; [assumption|].
  destruct (completeTransaction_ok s1 ctx id value) as (s2 & eff2 & Hcall & Ho & Hst & Hpay);
    rewrite ?Htx; try assumption.
  { destruct (value >? Transaction.price (transactions s id)); [assumption|reflexivity]. }
  rewrite Htx, Hb in *. exists s2, eff2. repeat split; congruence.
Qed.

Lemma offer_survives_a_transfer_witness :
  BatchTracking.currentOwner
    (batches
       (apply Demo.offered
          (Demo.by_ Demo.farmer, TransferBatchOwnership 1 Demo.distributor Processed "Plant"))
       1) = Demo.distributor /\
  exists s2 eff2,
    call (Demo.by_ Demo.distributor) (CompleteTransaction 1 150)
      (apply Demo.offered
         (Demo.by_ Demo.farmer, TransferBatchOwnership 1 Demo.distributor Processed "Plant"))
      = Success RVoid s2 eff2 /\
    BatchTracking.currentOwner (batches s2 1) = msg_sender (Demo.by_ Demo.distributor) /\
    BatchTracking.currentStage (batches s2 1) = Processed /\
    head (payments eff2) =
      Some (Transaction.from (transactions Demo.offered 1),
            Transaction.price (transactions Demo.offered 1)).
Proof.
  apply (offer_survives_a_transfer Demo.offered (Demo.by_ Demo.farmer) 1
           Demo.distributor Processed "Plant" RVoid
           (apply Demo.offered
              (Demo.by_ Demo.farmer,
               TransferBatchOwnership 1 Demo.distributor Processed "Plant"))
           [Emit (OwnershipTransferred 1 Demo.farmer Demo.distributor Processed)]
           (Demo.by_ Demo.distributor) 1 150);
    vm_compute; try reflexivity. discriminate.
Defined.

(** ** The participant registry, continued *)

(** X20. The record of a participant changes only in transactions sent by
    that participant or by the contract owner: no other sender can touch
    it. *)
Theorem participant_record_is_protected s tx p :
  msg_sender tx.1 <> p ->
  msg_sender tx.1 <> Ownable_owner s ->
  participants (apply s tx) p = participants s p.
Proof.
  intros Hp Ho. destruct tx as [ctx c]. unfold apply. cbn [fst snd] in *.
  destruct c; run_checks; try reflexivity; bools; try congruence;
    fn_cases; congruence.
Qed.

Lemma participant_record_is_protected_witness :
  participants
    (apply Demo.ledger
       (Demo.by_ Demo.distributor, DeactivateParticipant Demo.farmer)) Demo.farmer
  = participants Demo.ledger Demo.farmer.
Proof.
  apply (participant_record_is_protected Demo.ledger
           (Demo.by_ Demo.distributor, DeactivateParticipant Demo.farmer) Demo.farmer);
    vm_compute; discriminate.
Defined.

(** X21. [updateParticipantReputation] is for the contract owner only.  For
    an active participant it sets the reputation to the given value and
    changes nothing else; for a participant that is not active (deactivated
    or never registered) it is rejected with "Participant not active". *)
Theorem updateParticipantReputation_behaviour s ctx p value :
  (msg_sender ctx <> Ownable_owner s ->
   call ctx (UpdateParticipantReputation p value) s = Reverted Err.NotContractOwner) /\
  (msg_sender ctx = Ownable_owner s ->
   Participant.isActive (participants s p) = false ->
   call ctx (UpdateParticipantReputation p value) s
     = Reverted (Revert "Participant not active")) /\
  (msg_sender ctx = Ownable_owner s ->
   Participant.isActive (participants s p) = true ->
   exists s1,
     call ctx (UpdateParticipantReputation p value) s = Success RVoid s1 [] /\
     participants s1 p = Participant.set_reputation value (participants s p) /\
     (forall a, a <> p -> participants s1 a = participants s a) /\
     same_entities (set_participants (participants s) s1) s).
Proof.
  repeat split.
  - intros Ho. unfold_fns. apply not_eq_sym, Z.eqb_neq in Ho. by rewrite Ho.
  - intros Ho Ha. unfold_fns. rewrite Ho, Z.eqb_refl. cbn. by rewrite Ha.
  - intros Ho Ha. eexists. split.
    { unfold_fns. rewrite Ho, Z.eqb_refl. cbn. rewrite Ha. cbn. reflexivity. }
    cbn. fn_same. split; [reflexivity|]. split.
    + intros a Hne. by rewrite fn_lookup_alter_ne.
    + by repeat split.
Qed.

Lemma updateParticipantReputation_behaviour_witness :
  exists s1,
    call (Demo.by_ Demo.admin) (UpdateParticipantReputation Demo.farmer 150) Demo.ledger
      = Success RVoid s1 [] /\
    Participant.reputation (participants s1 Demo.farmer) = 150.
Proof.
  destruct (proj2 (proj2 (updateParticipantReputation_behaviour Demo.ledger
                            (Demo.by_ Demo.admin) Demo.farmer 150)))
    as (s1 & Hc & Hp & _); try (vm_compute; reflexivity).
  exists s1. split; [exact Hc|]. rewrite Hp. vm_compute. reflexivity.
Defined.

(** X22. A caller who is not an active participant cannot use any of the six
    functions guarded by [onlyRegistered] (createProduct, createBatch,
    recordEnvironmentData, transferBatchOwnership, updateQuality,
    addBatchNote): the call is rejected and the storage stays as it was. *)
Theorem inactive_caller_is_locked_out s ctx c :
  Participant.isActive (participants s (msg_sender ctx)) = false ->
  needs_registration c = true ->
  (exists f, call ctx c s = Reverted f /\
     f ∈ [Err.NotRegistered; Err.InvalidBatch; Err.NotCurrentOwner]) /\
  apply s (ctx, c) = s.
Proof.
  intros Ha Hc.
  assert (H : exists f, call ctx c s = Reverted f /\
     f ∈ [Err.NotRegistered; Err.InvalidBatch; Err.NotCurrentOwner]).
  { destruct c; cbn in Hc; try discriminate; unfold_fns; rewrite ?Ha; cbn;
      try (eexists; split; [reflexivity|]; rewrite !elem_of_cons; auto; fail).
    repeat (step_if; cbn); try congruence;
      eexists; (split; [reflexivity|]); rewrite !elem_of_cons; auto. }
  split; [assumption|]. destruct H as (f & Hf & _).
  unfold apply. cbn [fst snd]. by rewrite Hf.
Qed.

Lemma inactive_caller_is_locked_out_witness :
  apply Demo.ledger
    (Demo.by_ Demo.outsider,
     RecordEnvironmentData 1 500 6000 "Storage" "Unauthorized access attempt")
  = Demo.ledger.
Proof.
  apply (inactive_caller_is_locked_out Demo.ledger (Demo.by_ Demo.outsider)
           (RecordEnvironmentData 1 500 6000 "Storage" "Unauthorized access attempt"));
    vm_compute; reflexivity.
Defined.

Lemma pause_apply s tx : is_pause tx = true -> apply s tx = s.
Proof.
  destruct tx as [ctx c]. unfold is_pause, apply. cbn [fst snd].
  destruct c; try discriminate; intros _; run_checks; reflexivity.
Qed.

(** X23. [pause] and [unpause] stop nothing: dropping every call of them
    from a run of transactions leaves the resulting storage the same. *)
Theorem pause_and_unpause_have_no_effect txs : forall s,
  run s (filter (fun tx => is_pause tx = false) txs) = run s txs.
Proof.
  induction txs as [|tx txs IH]; intros s; [reflexivity|].
  destruct (is_pause tx) eqn:Hp.
  - rewrite filter_cons_False by congruence.
    rewrite run_cons, (pause_apply _ _ Hp). apply IH.
  - rewrite filter_cons_True by assumption. rewrite !run_cons. apply IH.
Qed.

(** ** Lookups by code *)

(** X24. In a reachable storage every code the index knows resolves to a
    created batch, that batch carries the id the index answers, and no other
    code resolves to it: codes and batches are matched one to one. *)
Theorem code_index_names_created_batches s code :
  reachable s ->
  qrCodeToBatch s code <> 0 ->
  let id := qrCodeToBatch s code in
  0 < id < nextBatchId s /\
  BatchTracking.batchId (batches s id) = id /\
  (forall code', qrCodeToBatch s code' = id -> code' = code).
Proof.
  intros Hr Hne id. subst id. pose proof (reachable_Linked _ Hr) as HL.
  pose proof (linked_code_range _ HL _ Hne) as Hrange.
  split; [assumption|]. split; [by apply (linked_batch_id _ HL)|].
  intros code' Heq. symmetry. apply (linked_code_inj _ HL); congruence.
Qed.

Lemma code_index_names_created_batches_witness :
  0 < qrCodeToBatch Demo.ledger "QR_001" < nextBatchId Demo.ledger.
Proof.
  apply (code_index_names_created_batches Demo.ledger "QR_001").
  - exists Demo.admin, Demo.setup. split; [discriminate|]. split; [|reflexivity].
    repeat constructor; discriminate.
  - vm_compute. discriminate.
Defined.

(** X25. The tracking route never fails on a reachable ledger: for a code
    the index does not know it answers 404, and for a known code it answers
    the batch the index names, with that batch's stage, owner, location,
    notes, record count and histories and the product the batch refers to.
    Without a contract it answers 503. *)
Theorem track_answers s code :
  reachable s ->
  Server.track None code = Server.Error 503 "Contract not available" /\
  (qrCodeToBatch s code = 0 ->
   Server.track (Some s) code = Server.Error 404 "QR code not found") /\
  (qrCodeToBatch s code <> 0 ->
   let id := qrCodeToBatch s code in
   let batch := batches s id in
   let product := products s (BatchTracking.productId batch) in
   Server.track (Some s) code =
     Server.Json
       (Server.mkTrackBody id code
          (Product.productName product, Product.variety product,
           Product.quantity product, Product.farmer product,
           Product.isOrganic product, Product.currentQuality product,
           Product.certifications product)
          (BatchTracking.currentStage batch) (BatchTracking.currentOwner batch)
          (BatchTracking.location batch) (BatchTracking.notes batch)
          (Z.of_nat (length (batchEnvironmentData s id)))
          (BatchTracking.ownershipHistory batch, BatchTracking.locationHistory batch,
           BatchTracking.stageTimestamps batch))).
Proof.
  intros Hr. split; [reflexivity|]. split.
  - intros Hz. unfold Server.track, Server.await. unfold_fns. by rewrite Hz.
  - intros Hne id batch product. subst id batch product.
    pose proof (linked_code_range _ (reachable_Linked _ Hr) _ Hne) as Hrange.
    unfold Server.track, Server.await. unfold_fns. cbn.
    apply Z.eqb_neq in Hne. rewrite Hne.
    rewrite (valid_batch_check _ _ Hrange). cbn. reflexivity.
Qed.

Lemma track_answers_witness :
  Server.track (Some Demo.ledger) "NON_EXISTENT_QR" = Server.Error 404 "QR code not found".
Proof.
  refine (proj1 (proj2 (track_answers Demo.ledger "NON_EXISTENT_QR" _)) _).
  - exists Demo.admin, Demo.setup. split; [discriminate|]. split; [|reflexivity].
    repeat constructor; discriminate.
  - vm_compute. reflexivity.
Defined.

(** ** The provenance log, continued *)

Lemma getEnvironmentData_at s b index record :
  0 < b < nextBatchId s ->
  0 <= index ->
  batchEnvironmentData s b !! Z.to_nat index = Some record ->
  view (getEnvironmentData b index) s =
    Returns (EnvironmentRecord.timestamp record, EnvironmentRecord.temperature record,
             EnvironmentRecord.humidity record, EnvironmentRecord.location record,
             EnvironmentRecord.recorder record, EnvironmentRecord.notes record).
Proof.
  intros Hb Hi Hl. unfold_fns. rewrite (valid_batch_check _ _ Hb). cbn.
  pose proof (lookup_lt_Some _ _ _ Hl) as Hlt.
  assert (Hlt' : (index <? Z.of_nat (length (batchEnvironmentData s b))) = true)
    by (apply Z.ltb_lt; lia).
  rewrite Hlt'. cbn. by rewrite Hl.
Qed.

(** X26. [getEnvironmentData] on a created batch answers exactly the
    records of the log, by position: index [i] below the record count gives
    the fields of the [i]-th record appended, an index at or above the count
    is rejected with "Invalid index", and an answer once given stays the
    answer whatever transactions follow. *)
Theorem getEnvironmentData_reads_the_log s b index :
  0 < b < nextBatchId s ->
  0 <= index ->
  let log := batchEnvironmentData s b in
  (index < Z.of_nat (length log) ->
   exists record,
     log !! Z.to_nat index = Some record /\
     forall later,
       view (getEnvironmentData b index) (run s later) =
         Returns (EnvironmentRecord.timestamp record,
                  EnvironmentRecord.temperature record,
                  EnvironmentRecord.humidity record,
                  EnvironmentRecord.location record,
                  EnvironmentRecord.recorder record,
                  EnvironmentRecord.notes record)) /\
  (Z.of_nat (length log) <= index ->
   view (getEnvironmentData b index) s = Reverts (Revert "Invalid index")).
Proof.
  intros Hb Hi log. subst log. split.
  - intros Hlt.
    destruct (lookup_lt_is_Some_2 (batchEnvironmentData s b) (Z.to_nat index))
      as [record Hrec]; [lia|].
    exists record. split; [assumption|]. intros later.
    apply getEnvironmentData_at; [|assumption|].
    + pose proof (nextBatchId_run later s). lia.
    + by apply (prefix_lookup_Some _ _ _ _ Hrec), log_prefix_run.
  - intros Hge. unfold_fns. rewrite (valid_batch_check _ _ Hb). cbn.
    apply Z.ltb_ge in Hge. by rewrite Hge.
Qed.

Lemma getEnvironmentData_reads_the_log_witness :
  view (getEnvironmentData 1 5) Demo.ledger = Reverts (Revert "Invalid index").
Proof.
  refine (proj2 (getEnvironmentData_reads_the_log Demo.ledger 1 5 _ _) _).
  - vm_compute. split; reflexivity.
  - lia.
  - vm_compute. discriminate.
Defined.

(** ** The API server *)

Lemma recent_range s id (k : nat) :
  0 < id < nextBatchId s ->
  (k <= length (batchEnvironmentData s id))%nat ->
  omap (fun i =>
          match view (getEnvironmentData id i) s with
          | Returns envData => Some envData
          | Reverts _ => None
          end)
    (seqZ (Z.of_nat k) (Z.of_nat (length (batchEnvironmentData s id)) - Z.of_nat k))
  = (fun record =>
       (EnvironmentRecord.timestamp record, EnvironmentRecord.temperature record,
        EnvironmentRecord.humidity record, EnvironmentRecord.location record,
        EnvironmentRecord.recorder record, EnvironmentRecord.notes record))
    <$> drop k (batchEnvironmentData s id).
Proof.
  intros Hid. remember (length (batchEnvironmentData s id) - k)%nat as d eqn:Hd.
  revert k Hd. induction d as [|d IH]; intros k Hd Hk.
  - rewrite seqZ_nil by lia. rewrite drop_ge by lia. reflexivity.
  - rewrite seqZ_cons by lia.
    destruct (lookup_lt_is_Some_2 (batchEnvironmentData s id) k) as [record Hrec]; [lia|].
    rewrite (drop_S _ _ _ Hrec). cbn.
    rewrite (getEnvironmentData_at s id (Z.of_nat k) record Hid); [|lia|by rewrite Nat2Z.id].
    cbn. f_equal.
    replace (Z.succ (Z.of_nat k)) with (Z.of_nat (S k)) by lia.
    replace (Z.pred (Z.of_nat (length (batchEnvironmentData s id)) - Z.of_nat k))
      with (Z.of_nat (length (batchEnvironmentData s id)) - Z.of_nat (S k)) by lia.
    apply IH; lia.
Qed.

(** X27. For a created batch the environment route collects, oldest first,
    the latest [min(count, limit)] records of the batch's log (none when the
    limit is zero or negative); every index it asks the contract for is in
    range, so no record is skipped.  For a batch id the contract refuses, the
    route gets nothing from the contract and falls back to its cache. *)
Theorem recent_records_are_the_latest s id limit :
  let log := batchEnvironmentData s id in
  let n := Z.to_nat (Z.min (Z.of_nat (length log)) limit) in
  (0 < id < nextBatchId s ->
   Server.recent_records s id limit =
     Some ((fun record =>
              (EnvironmentRecord.timestamp record, EnvironmentRecord.temperature record,
               EnvironmentRecord.humidity record, EnvironmentRecord.location record,
               EnvironmentRecord.recorder record, EnvironmentRecord.notes record))
           <$> drop (length log - n) log)) /\
  (~ (0 < id < nextBatchId s) -> Server.recent_records s id limit = None).
Proof.
  intros log n. subst log n. split.
  - intros Hid. unfold Server.recent_records.
    assert (Hd : view (getBatchDetails id) s =
              Returns (BatchTracking.batchId (batches s id),
                       BatchTracking.productId (batches s id),
                       BatchTracking.currentStage (batches s id),
                       BatchTracking.currentOwner (batches s id),
                       BatchTracking.location (batches s id),
                       BatchTracking.notes (batches s id),
                       Z.of_nat (length (batchEnvironmentData s id)))).
    { unfold_fns. by rewrite (valid_batch_check _ _ Hid). }
    rewrite Hd. f_equal. unfold Server.recent_indices.
    set (len := length (batchEnvironmentData s id)).
    destruct (decide (limit < 0)) as [Hneg|Hpos].
    + rewrite seqZ_nil by lia. rewrite drop_ge by (subst len; lia). reflexivity.
    + replace (Z.max 0 (Z.of_nat len - Z.min (Z.of_nat len) limit))
        with (Z.of_nat (len - Z.to_nat (Z.min (Z.of_nat len) limit))) by lia.
      apply recent_range; [assumption|subst len; lia].
  - intros Hid. unfold Server.recent_records. unfold_fns.
    by rewrite (invalid_batch_check _ _ Hid).
Qed.

Lemma recent_records_are_the_latest_witness :
  Server.recent_records Demo.ledger 999 50 = None.
Proof.
  apply (recent_records_are_the_latest Demo.ledger 999 50).
  vm_compute. intros [_ H]. discriminate H.
Defined.

(** X28. The cached answer of the environment route: a positive limit gives
    the latest [limit] cached readings (all of them when there are fewer), a
    limit of zero gives the whole cache, a negative limit drops the oldest
    [-limit] readings; the reported count is always the size of the whole
    cache. *)
Theorem cached_readings_window {A} (cachedData : list A) limit :
  snd (Server.cached_readings cachedData limit) = Z.of_nat (length cachedData) /\
  (0 < limit ->
   fst (Server.cached_readings cachedData limit) =
     drop (length cachedData - Z.to_nat limit) cachedData) /\
  (limit = 0 -> fst (Server.cached_readings cachedData limit) = cachedData) /\
  (limit < 0 ->
   fst (Server.cached_readings cachedData limit) = drop (Z.to_nat (- limit)) cachedData).
Proof.
  unfold Server.cached_readings, Server.slice_from. cbn [fst snd].
  split; [reflexivity|]. repeat split.
  - intros Hl. assert (Hneg : (- limit <? 0) = true) by (apply Z.ltb_lt; lia).
    rewrite Hneg. f_equal. lia.
  - intros ->. change (- 0 <? 0) with false. cbn iota.
    change (- 0) with 0. rewrite Z.min_l by lia. reflexivity.
  - intros Hl. assert (Hneg : (- limit <? 0) = false) by (apply Z.ltb_ge; lia).
    rewrite Hneg.
    destruct (decide (- limit <= Z.of_nat (length cachedData))) as [Hle|Hgt].
    + f_equal. lia.
    + rewrite !drop_ge by lia. reflexivity.
Qed.

Lemma cached_readings_window_witness :
  fst (Server.cached_readings [10; 20; 30] 2) = [20; 30] /\
  fst (Server.cached_readings [10; 20; 30] 0) = [10; 20; 30].
Proof.
  split.
  - refine (proj1 (proj2 (cached_readings_window [10; 20; 30] 2)) _). lia.
  - refine (proj1 (proj2 (proj2 (cached_readings_window [10; 20; 30] 0))) _).
    reflexivity.
Defined.

(** ** Names of the enumerations *)

(** X29. The display names are faithful: the five stage names are pairwise
    different, and so are the four role names and the four quality names. *)
Theorem enum_names_are_distinct :
  NoDup (getStageString <$> [Harvested; Processed; InTransit; Delivered; Sold]) /\
  NoDup (getRoleString <$> [Farmer; Supplier; Distributor; Retailer]) /\
  NoDup (getQualityString <$> [Excellent; Good; Fair; Poor]).
Proof.
  repeat split; apply (bool_decide_unpack _); vm_compute; exact I.
Qed.

(** ** Registration *)

(** X30. [registerParticipant] by a caller whose record is not active: with
    a non-empty name and location it succeeds, emits [ParticipantRegistered]
    and stores the caller's record as given, active, with reputation 100,
    touching no other participant; an empty name is rejected with "Name
    cannot be empty" and, the name given, an empty location with "Location
    cannot be empty". *)
Theorem registerParticipant_behaviour s ctx name loc role :
  Participant.isActive (participants s (msg_sender ctx)) = false ->
  (0 < bytes_length name -> 0 < bytes_length loc ->
   exists s1,
     call ctx (RegisterParticipant name loc role) s
       = Success RVoid s1 [Emit (ParticipantRegistered (msg_sender ctx) role name)] /\
     participants s1 (msg_sender ctx) = Participant.mk name loc role true 100 /\
     (forall a, a <> msg_sender ctx -> participants s1 a = participants s a)) /\
  (bytes_length name = 0 ->
   call ctx (RegisterParticipant name loc role) s
     = Reverted (Revert "Name cannot be empty")) /\
  (0 < bytes_length name -> bytes_length loc = 0 ->
   call ctx (RegisterParticipant name loc role) s
     = Reverted (Revert "Location cannot be empty")).
Proof.
  intros Ha. repeat split.
  - intros Hn Hl. eexists. split.
    { unfold_fns. rewrite Ha. cbn. rewrite (gtb_true _ _ Hn), (gtb_true _ _ Hl). cbn.
      reflexivity. }
    cbn. fn_same. split; [reflexivity|].
    intros a Hne. rewrite fn_lookup_insert_ne; [reflexivity|congruence].
  - intros Hn. unfold_fns. rewrite Ha. cbn. by rewrite Hn.
  - intros Hn Hl. unfold_fns. rewrite Ha. cbn. rewrite (gtb_true _ _ Hn). cbn.
    by rewrite Hl.
Qed.

Lemma registerParticipant_behaviour_witness :
  call (Demo.by_ Demo.outsider) (RegisterParticipant "Farm Name" EmptyString Farmer)
    Demo.ledger = Reverted (Revert "Location cannot be empty").
Proof.
  refine (proj2 (proj2 (registerParticipant_behaviour Demo.ledger
                          (Demo.by_ Demo.outsider) "Farm Name" EmptyString Farmer _)) _ _);
    vm_compute; reflexivity.
Defined.
